(** * BLE / WBAN vital-signs generator: a shallow embedding

    Embedding of [src/data/bleWbanDataGenerator.ts].

    - A JavaScript [number] is an exact rational ([Q]); values that the
      source only ever builds with [Math.floor] or [++] from integers
      (frame counter, channel, frequency, antenna, bit length, timestamps)
      are integers ([Z]).  The rounding error of IEEE doubles is not
      modelled; the concrete runs below stay away from rounding ties, and
      where an exact product is a tie that the source's doubles resolve the
      other way (85 * 0.7 = 59.5, computed as 59.49999999999999), the
      bounds stated hold for both results.
    - [Math.random()] and [Date.now()] are the two ambient inputs of the
      program.  They are the section variables [random] and [clock]: the
      [k]-th call of [Math.random()] returns [random k].  The number of
      calls made so far is part of the [World], next to the generator
      instance, and every method is a state transformer on [World].
    - The two [Map]s of the class are [gmap]s keyed by strings. *)

From Stdlib Require Import ZArith QArith Qround Lqa Lia List Sorted String Ascii.
From stdpp Require Import base gmap strings sorting.

Open Scope Q_scope.

(** ** The fragment of JavaScript's [Math] and of its operators that the
    generator uses *)

Module Math.

Definition floor (x : Q) : Z := Qfloor x.

(** [Math.round] rounds to the nearest integer, ties towards +infinity. *)
Definition round (x : Q) : Z := Qfloor (x + 0.5).

Definition max (a b : Q) : Q := if Qle_bool a b then b else a.

Definition min (a b : Q) : Q := if Qle_bool a b then a else b.

End Math.

(** [x < y] and [x > y] on numbers, as booleans. *)
Definition Qltb (x y : Q) : bool := negb (Qle_bool y x).
Definition Qgtb (x y : Q) : bool := Qltb y x.

Infix "<?" := Qltb (at level 70, no associativity) : Q_scope.
Infix ">?" := Qgtb (at level 70, no associativity) : Q_scope.

(** [v || d] where [v] is a number or [undefined]: [undefined] and [0] are
    falsy. *)
Definition or_default (v : option Q) (d : Q) : Q :=
  match v with
  | Some x => if Qeq_bool x 0 then d else x
  | None => d
  end.

(** A parameter with a default value: [undefined] selects the default. *)
Definition default_param (v : option Q) (d : Q) : Q :=
  match v with
  | Some x => x
  | None => d
  end.

(** ** Data model *)

Inductive Position : Type :=
  | head | arm | wrist | chest | torso_front | torso_back.

Inductive TxPower : Type :=
  | dbm9 | dbm6 | dbm3 | dbm0.

Inductive SignalQuality : Type :=
  | excellent | good | fair | poor.

Inductive ConnectionStatus : Type :=
  | connected | weak | disconnected.

Record BLEWBANFrame : Type := {
  frameNumber : Z;
  frame_timestamp : Z;
  deviceId : string;
  position : Position;
  txPower : TxPower;
  antenna : Z;
  frequency : Z;
  channelNumber : Z;
  rssi : Q;
  signalStrength : Q;
  frameDecoded : bool;
  bitLength : Z;
  maxGradientUnwrappedPhase : list Q;
  iComponent : list Q;
  qComponent : list Q
}.

Record BloodPressure : Type := {
  systolic : Q;
  diastolic : Q
}.

Record VitalSignsReading : Type := {
  heartRate : Q;
  bloodPressure : BloodPressure;
  oxygenSaturation : Q;
  temperature : Q;
  timestamp : Z;
  signalQuality : SignalQuality;
  batteryLevel : Q;
  connectionStatus : ConnectionStatus
}.

Record SensorPosition : Type := {
  id : string;
  name : string;
  sensor_position : Position;
  priority : Z
}.

Definition WBAN_POSITIONS : list SensorPosition :=
  [ {| id := "chest"; name := "Chest ECG"; sensor_position := chest; priority := 1 |};
    {| id := "wrist_l"; name := "Left Wrist"; sensor_position := wrist; priority := 2 |};
    {| id := "wrist_r"; name := "Right Wrist"; sensor_position := wrist; priority := 2 |};
    {| id := "head"; name := "Head Monitor"; sensor_position := head; priority := 3 |};
    {| id := "arm_l"; name := "Left Arm BP"; sensor_position := arm; priority := 2 |};
    {| id := "torso_back"; name := "Back Monitor"; sensor_position := torso_back;
       priority := 4 |} ].

Definition BLE_CHANNELS : list Z :=
  [0; 1; 2; 3; 4; 5; 6; 7; 8; 9; 10; 12; 13; 14; 15; 16; 17; 18; 19; 20; 21;
   22; 23; 24; 25; 26; 27; 28; 29; 30; 31; 32; 33; 34; 35; 36; 37; 38; 39]%Z.

(** The generator instance: its three private fields. *)
Record BLEWBANDataGenerator : Type := {
  frameCounter : Z;
  lastReadings : gmap string VitalSignsReading;
  signalNoiseFactors : gmap string Q
}.

(** The generator together with the number of [Math.random()] and
    [Date.now()] calls made so far. *)
Record World : Type := {
  this : BLEWBANDataGenerator;
  random_calls : nat;
  clock_calls : nat
}.

Record NetworkStats : Type := {
  totalDevices : Z;
  activeDevices : Z;
  averageRSSI : Q;
  packetLossRate : Q
}.

Record WBANReading : Type := {
  patientId : string;
  vitals : VitalSignsReading;
  bleFrames : list BLEWBANFrame;
  networkStats : NetworkStats
}.

(** ** The state monad of the methods *)

Definition M (A : Type) : Type := World -> A * World.

Definition ret {A} (a : A) : M A := fun w => (a, w).

Definition bind {A B} (m : M A) (k : A -> M B) : M B :=
  fun w => let (a, w') := m w in k a w'.

Notation "'let*' x ':=' m 'in' k" := (bind m (fun x => k))
  (at level 10, x name, m at level 100, k at level 200).
Notation "m ;; k" := (bind m (fun _ => k))
  (at level 100, k at level 200, right associativity).

Definition get_this : M BLEWBANDataGenerator := fun w => (this w, w).

Definition set_this (g : BLEWBANDataGenerator) : M unit :=
  fun w => (tt, {| this := g; random_calls := random_calls w;
                   clock_calls := clock_calls w |}).

(** [Array.from({ length: n }, () => m)] and [xs.forEach(x => f x)]
    collecting what the callback pushes. *)
Fixpoint Array_from {A} (n : nat) (m : M A) : M (list A) :=
  match n with
  | O => ret []
  | S n' => let* x := m in let* xs := Array_from n' m in ret (x :: xs)
  end.

Fixpoint forEach {A B} (xs : list A) (f : A -> M B) : M (list B) :=
  match xs with
  | [] => ret []
  | x :: xs' => let* y := f x in let* ys := forEach xs' f in ret (y :: ys)
  end.

Section Generator.

(** [random k] is the value of the [k]-th call of [Math.random()],
    [clock k] that of the [k]-th call of [Date.now()]. *)
Variable random : nat -> Q.
Variable clock : nat -> Z.

Definition Math_random : M Q :=
  fun w => (random (random_calls w),
            {| this := this w; random_calls := S (random_calls w);
               clock_calls := clock_calls w |}).

Definition Date_now : M Z :=
  fun w => (clock (clock_calls w),
            {| this := this w; random_calls := random_calls w;
               clock_calls := S (clock_calls w) |}).

(** [new BLEWBANDataGenerator()]: field initialisers, then one noise
    factor per sensor position, keyed by the position's [id]. *)
Definition constructor : M unit :=
  set_this {| frameCounter := 0; lastReadings := ∅; signalNoiseFactors := ∅ |} ;;
  forEach WBAN_POSITIONS (fun pos =>
    let* r := Math_random in
    let* g := get_this in
    set_this {| frameCounter := frameCounter g;
                lastReadings := lastReadings g;
                signalNoiseFactors :=
                  <[ id pos := r * 0.1 + 0.9 ]> (signalNoiseFactors g) |}) ;;
  ret tt.

(** [BLE_CHANNELS[i]].  The index is [Math.floor(Math.random() * 39)],
    within bounds since [Math.random()] is in [0,1) (lemma
    [channel_index_in_bounds]); the default stands for the [undefined]
    JavaScript reads out of bounds. *)
Definition channel_at (i : Z) : Z := nth (Z.to_nat i) BLE_CHANNELS 0%Z.

Definition generateBLEFrame (deviceId : string) (position : Position)
  : M BLEWBANFrame :=
  let* g := get_this in
  set_this {| frameCounter := frameCounter g + 1;
              lastReadings := lastReadings g;
              signalNoiseFactors := signalNoiseFactors g |} ;;
  let* r1 := Math_random in
  let* txPower :=
    (if r1 >? 0.7 then ret dbm9
     else let* r2 := Math_random in ret (if r2 >? 0.5 then dbm6 else dbm3)) in
  let* rc := Math_random in
  let channel := channel_at (Math.floor (rc * inject_Z (Z.of_nat (length BLE_CHANNELS)))) in
  let frequency := (2402000000 + channel * 2000000)%Z in
  let* rl := Math_random in
  let frameLength := (Math.floor (rl * 1000) + 8000)%Z in
  let* iComponent := Array_from 10 (let* r := Math_random in ret ((r - 0.5) * 0.02)) in
  let* qComponent := Array_from 10 (let* r := Math_random in ret ((r - 0.5) * 0.02)) in
  let* g := get_this in
  let noiseLevel := or_default (signalNoiseFactors g !! deviceId) 1 in
  let baseRSSI := -40 in
  let* rr := Math_random in
  let rssi := baseRSSI + (rr * 20 - 10) * (1 / noiseLevel) in
  let* now := Date_now in
  let* ra := Math_random in
  let* rd := Math_random in
  let* rb := Math_random in
  let* phase := Array_from 5 (let* r := Math_random in ret (r * 0.03 - 0.015)) in
  ret {| frameNumber := frameCounter g;
         frame_timestamp := now;
         deviceId := deviceId;
         position := position;
         txPower := txPower;
         antenna := (Math.floor (ra * 4) + 1)%Z;
         frequency := frequency;
         channelNumber := channel;
         rssi := rssi;
         signalStrength := Math.max 0 (Math.min 100 ((rssi + 100) * 1.25));
         frameDecoded := rd >? 0.05;
         bitLength := (Math.floor (rb * 100) + 150)%Z;
         maxGradientUnwrappedPhase := phase;
         iComponent := iComponent;
         qComponent := qComponent |}.

(** The local variables [heartRate], [systolic], [diastolic], [oxygenSat]
    and [temperature] of [extractVitalSigns]. *)
Record BaseVitals : Type := {
  base_heartRate : Q;
  base_systolic : Q;
  base_diastolic : Q;
  base_oxygenSat : Q;
  base_temperature : Q
}.

Definition generateHeartRate (lastValue : option Q) (stability : option Q) : M Q :=
  let stability := default_param stability 0.9 in
  let baseRate := or_default lastValue 72 in
  let* r := Math_random in
  let variation := (r - 0.5) * 10 in
  ret (Math.max 50 (Math.min 150 (baseRate * stability + variation))).

Definition generateBloodPressure (lastValue : option BloodPressure)
  : M BloodPressure :=
  let baseSys := or_default (systolic <$> lastValue) 120 in
  let baseDia := or_default (diastolic <$> lastValue) 80 in
  let* rs := Math_random in
  let* rd := Math_random in
  ret {| systolic := Math.max 90 (Math.min 180 (baseSys + (rs - 0.5) * 8));
         diastolic := Math.max 60 (Math.min 120 (baseDia + (rd - 0.5) * 6)) |}.

Definition generateOxygenSat (lastValue : option Q) (stability : option Q) : M Q :=
  let stability := default_param stability 0.95 in
  let baseSat := or_default lastValue 98 in
  let* r := Math_random in
  let variation := (r - 0.5) * 2 in
  ret (Math.max 85 (Math.min 100 (baseSat * stability + variation))).

Definition generateTemperature (lastValue : option Q) : M Q :=
  let baseTemp := or_default lastValue 98.6 in
  let* r := Math_random in
  let variation := (r - 0.5) * 0.5 in
  ret (Math.max 95 (Math.min 104 (baseTemp + variation))).

(** The signal-quality [if]/[else if] chain of [extractVitalSigns]. *)
Definition classify (bleFrame : BLEWBANFrame) : SignalQuality :=
  if (rssi bleFrame <? -70) || negb (frameDecoded bleFrame) then poor
  else if rssi bleFrame <? -60 then fair
  else if rssi bleFrame <? -50 then good
  else excellent.

(** The initial values of the five locals and the [switch] on the
    frame's position ([torso_front] has no case). *)
Definition positionVitals (pos : Position) (lastReading : option VitalSignsReading)
  : M BaseVitals :=
  let heartRate0 := 72 in
  let systolic0 := 120 in
  let diastolic0 := 80 in
  let oxygenSat0 := 98 in
  let temperature0 := 98.6 in
  match pos with
  | chest =>
      let* hr := generateHeartRate (heartRate <$> lastReading) (Some 0.8) in
      ret {| base_heartRate := hr; base_systolic := systolic0;
             base_diastolic := diastolic0; base_oxygenSat := oxygenSat0;
             base_temperature := temperature0 |}
  | wrist =>
      let* hr := generateHeartRate (heartRate <$> lastReading) (Some 0.9) in
      let* ox := generateOxygenSat (oxygenSaturation <$> lastReading) (Some 0.9) in
      ret {| base_heartRate := hr; base_systolic := systolic0;
             base_diastolic := diastolic0; base_oxygenSat := ox;
             base_temperature := temperature0 |}
  | arm =>
      let* bp := generateBloodPressure (bloodPressure <$> lastReading) in
      ret {| base_heartRate := heartRate0; base_systolic := systolic bp;
             base_diastolic := diastolic bp; base_oxygenSat := oxygenSat0;
             base_temperature := temperature0 |}
  | head =>
      let* t := generateTemperature (temperature <$> lastReading) in
      ret {| base_heartRate := heartRate0; base_systolic := systolic0;
             base_diastolic := diastolic0; base_oxygenSat := oxygenSat0;
             base_temperature := t |}
  | torso_back =>
      let* hr := generateHeartRate (heartRate <$> lastReading) (Some 0.7) in
      let* t := generateTemperature (temperature <$> lastReading) in
      ret {| base_heartRate := hr; base_systolic := systolic0;
             base_diastolic := diastolic0; base_oxygenSat := oxygenSat0;
             base_temperature := t |}
  | torso_front =>
      ret {| base_heartRate := heartRate0; base_systolic := systolic0;
             base_diastolic := diastolic0; base_oxygenSat := oxygenSat0;
             base_temperature := temperature0 |}
  end.

Definition qualityFactor (signalQuality : SignalQuality) : Q :=
  match signalQuality with
  | excellent => 1
  | good => 0.95
  | fair => 0.85
  | poor => 0.7
  end.

Definition batteryOf (counter : Z) : Q :=
  Math.max 10 (100 - inject_Z counter * 0.01).

Definition extractVitalSigns (bleFrame : BLEWBANFrame) : M VitalSignsReading :=
  let deviceId := deviceId bleFrame in
  let* g := get_this in
  let lastReading := lastReadings g !! deviceId in
  let signalQuality := classify bleFrame in
  let* b := positionVitals (position bleFrame) lastReading in
  let qualityFactor := qualityFactor signalQuality in
  let* g := get_this in
  let reading :=
    {| heartRate := inject_Z (Math.round (base_heartRate b * qualityFactor));
       bloodPressure :=
         {| systolic := inject_Z (Math.round (base_systolic b * qualityFactor));
            diastolic := inject_Z (Math.round (base_diastolic b * qualityFactor)) |};
       oxygenSaturation := inject_Z (Math.round (base_oxygenSat b * qualityFactor));
       temperature :=
         inject_Z (Math.round ((base_temperature b * qualityFactor) * 10)) / 10;
       timestamp := frame_timestamp bleFrame;
       signalQuality := signalQuality;
       batteryLevel := batteryOf (frameCounter g);
       connectionStatus :=
         if signalStrength bleFrame >? 70 then connected
         else if signalStrength bleFrame >? 40 then weak
         else disconnected |} in
  set_this {| frameCounter := frameCounter g;
              lastReadings := <[ deviceId := reading ]> (lastReadings g);
              signalNoiseFactors := signalNoiseFactors g |} ;;
  ret reading.

End Generator.

#[global] Instance SignalQuality_eq_dec : EqDecision SignalQuality.
Proof. solve_decision. Defined.

#[global] Instance ConnectionStatus_eq_dec : EqDecision ConnectionStatus.
Proof. solve_decision. Defined.

(** [a || b || c] on objects-or-[undefined]: the first one that is defined. *)
Definition first_defined {A} (a b : option A) : option A :=
  match a with
  | Some x => Some x
  | None => b
  end.

(** [aggregateVitalSigns]; [None] is the [TypeError] that reading
    [bestReading.heartRate] raises when [readings] is empty. *)
Definition aggregateVitalSigns (readings : list VitalSignsReading)
  : option VitalSignsReading :=
  let chestReading :=
    List.find (fun r => bool_decide (signalQuality r = excellent)) readings in
  let goodReadings :=
    List.filter (fun r => bool_decide (signalQuality r <> poor)) readings in
  let bestReading :=
    first_defined chestReading
      (first_defined (goodReadings !! 0%nat) (readings !! 0%nat)) in
  let hrReadings := List.filter (fun r => heartRate r >? 0) readings in
  match bestReading with
  | None => None
  | Some bestReading =>
      let avgHeartRate :=
        if inject_Z (Z.of_nat (length hrReadings)) >? 0 then
          inject_Z (Math.round
            (fold_left (fun sum r => sum + heartRate r) hrReadings 0
             / inject_Z (Z.of_nat (length hrReadings))))
        else heartRate bestReading in
      Some {| heartRate := avgHeartRate;
              bloodPressure := bloodPressure bestReading;
              oxygenSaturation := oxygenSaturation bestReading;
              temperature := temperature bestReading;
              timestamp := timestamp bestReading;
              signalQuality :=
                if inject_Z (Z.of_nat (length goodReadings))
                   >? inject_Z (Z.of_nat (length readings)) / 2
                then good else fair;
              batteryLevel := batteryLevel bestReading;
              connectionStatus :=
                if forallb (fun r => bool_decide (connectionStatus r = connected)) readings
                then connected
                else if existsb (fun r => bool_decide (connectionStatus r = connected))
                          readings
                then weak else disconnected |}
  end.

Section Network.

Variable random : nat -> Q.
Variable clock : nat -> Z.

(** The callback of the [forEach] loop of [generateWBANReading]: the
    frame it pushes to [bleFrames] and the reading it pushes to
    [vitalReadings]. *)
Definition readSensor (patientId : string) (sensor : SensorPosition)
  : M (BLEWBANFrame * VitalSignsReading) :=
  let* frame := generateBLEFrame random clock
                  (patientId +:+ "_" +:+ id sensor) (sensor_position sensor) in
  let* vitals := extractVitalSigns random frame in
  ret (frame, vitals).

(** The loop: one frame and one reading per sensor, in catalog order. *)
Definition sensorReadings (patientId : string)
  : M (list (BLEWBANFrame * VitalSignsReading)) :=
  forEach WBAN_POSITIONS (readSensor patientId).

Definition generateWBANReading (patientId : string) : M (option WBANReading) :=
  let* collected := sensorReadings patientId in
  let bleFrames := map fst collected in
  let vitalReadings := map snd collected in
  match aggregateVitalSigns vitalReadings with
  | None => ret None
  | Some aggregatedVitals =>
      let activeFrames := List.filter frameDecoded bleFrames in
      let count (l : list BLEWBANFrame) := inject_Z (Z.of_nat (length l)) in
      let avgRSSI :=
        fold_left (fun sum f => sum + rssi f) bleFrames 0 / count bleFrames in
      let packetLoss := (count bleFrames - count activeFrames) / count bleFrames in
      ret (Some {| patientId := patientId;
                   vitals := aggregatedVitals;
                   bleFrames := bleFrames;
                   networkStats :=
                     {| totalDevices := Z.of_nat (length WBAN_POSITIONS);
                        activeDevices := Z.of_nat (length activeFrames);
                        averageRSSI := inject_Z (Math.round (avgRSSI * 10)) / 10;
                        packetLossRate :=
                          inject_Z (Math.round (packetLoss * 1000)) / 10 |} |})
  end.

End Network.

(** ** Call traces

    What a client can do with one generator instance: after
    [new BLEWBANDataGenerator()], any sequence of calls of its three public
    methods.  A call of [generateWBANReading] is observed through the frames
    and readings of its loop, in the order in which it makes them. *)

Inductive Call : Type :=
  | CallGenerateBLEFrame (deviceId : string) (position : Position)
  | CallExtractVitalSigns (bleFrame : BLEWBANFrame)
  | CallGenerateWBANReading (patientId : string).

Inductive Event : Type :=
  | FrameGenerated (frame : BLEWBANFrame)
  | VitalsExtracted (reading : VitalSignsReading).

Definition framesOf (evs : list Event) : list BLEWBANFrame :=
  flat_map (fun e => match e with FrameGenerated f => [f] | _ => [] end) evs.

Definition readingsOf (evs : list Event) : list VitalSignsReading :=
  flat_map (fun e => match e with VitalsExtracted r => [r] | _ => [] end) evs.

Section Traces.

Variable random : nat -> Q.
Variable clock : nat -> Z.

Definition perform (c : Call) : M (list Event) :=
  match c with
  | CallGenerateBLEFrame deviceId position =>
      let* f := generateBLEFrame random clock deviceId position in
      ret [FrameGenerated f]
  | CallExtractVitalSigns bleFrame =>
      let* r := extractVitalSigns random bleFrame in
      ret [VitalsExtracted r]
  | CallGenerateWBANReading patientId =>
      let* collected := sensorReadings random clock patientId in
      ret (flat_map (fun fr => [FrameGenerated (fst fr); VitalsExtracted (snd fr)])
             collected)
  end.

Fixpoint performAll (cs : list Call) : M (list Event) :=
  match cs with
  | [] => ret []
  | c :: cs' =>
      let* evs := perform c in
      let* evs' := performAll cs' in
      ret (evs ++ evs')
  end.

(** A fresh instance, then the calls. *)
Definition session (cs : list Call) : M (list Event) :=
  constructor random ;; performAll cs.

End Traces.

(** The world before any instance exists. *)
Definition boot : World :=
  {| this := {| frameCounter := 0; lastReadings := ∅; signalNoiseFactors := ∅ |};
     random_calls := 0; clock_calls := 0 |}.

(** ** Properties the specification states, as predicates *)

(** The documented physiological bands. *)
Definition documented_bands (r : VitalSignsReading) : Prop :=
  50 <= heartRate r <= 150 /\
  90 <= systolic (bloodPressure r) <= 180 /\
  60 <= diastolic (bloodPressure r) <= 120 /\
  85 <= oxygenSaturation r <= 100 /\
  95 <= temperature r <= 104.

(** The bands after scaling by a quality factor [q] and rounding, in exact
    arithmetic. *)
Definition scaled_bands (q : Q) (r : VitalSignsReading) : Prop :=
  inject_Z (Math.round (50 * q)) <= heartRate r <= inject_Z (Math.round (150 * q)) /\
  inject_Z (Math.round (90 * q)) <= systolic (bloodPressure r)
    <= inject_Z (Math.round (180 * q)) /\
  inject_Z (Math.round (60 * q)) <= diastolic (bloodPressure r)
    <= inject_Z (Math.round (120 * q)) /\
  inject_Z (Math.round (85 * q)) <= oxygenSaturation r
    <= inject_Z (Math.round (100 * q)) /\
  inject_Z (Math.round (95 * q * 10)) / 10 <= temperature r
    <= inject_Z (Math.round (104 * q * 10)) / 10.

(** Five bands at once. *)
Definition within_bands (h1 h2 s1 s2 d1 d2 o1 o2 t1 t2 : Q) (r : VitalSignsReading)
  : Prop :=
  h1 <= heartRate r <= h2 /\
  s1 <= systolic (bloodPressure r) <= s2 /\
  d1 <= diastolic (bloodPressure r) <= d2 /\
  o1 <= oxygenSaturation r <= o2 /\
  t1 <= temperature r <= t2.

(** The bands of a reading by its signal-quality class: the documented
    bands for excellent, and for the other classes the documented bands
    times the class's factor, rounded as the source rounds them.  The poor
    floor of the oxygen saturation is 59: the exact product 85 * 0.7 is the
    tie 59.5, which rounds to 60, and the source's double product lies just
    below it and rounds to 59. *)
Definition class_bands (s : SignalQuality) (r : VitalSignsReading) : Prop :=
  match s with
  | excellent => within_bands 50 150 90 180 60 120 85 100 95 104 r
  | good => within_bands 48 143 86 171 57 114 81 95 90.3 98.8 r
  | fair => within_bands 43 128 77 153 51 102 72 85 80.8 88.4 r
  | poor => within_bands 35 105 63 126 42 84 59 70 66.5 72.8 r
  end.

(** [Math.random()] returns a number in [0, 1). *)
Definition unit_interval (random : nat -> Q) : Prop :=
  forall k, 0 <= random k < 1.

(** The channel set as the specification words it: indices 0 to 36 without
    11, plus 37 and 38. *)
Definition worded_channel_set (c : Z) : Prop :=
  ((0 <= c <= 36)%Z /\ c <> 11%Z) \/ c = 37%Z \/ c = 38%Z.


(** The noise-factor map has no key but the sensor positions' ids. *)
Definition noise_keys (g : BLEWBANDataGenerator) : Prop :=
  forall k, is_Some (signalNoiseFactors g !! k) -> k ∈ id <$> WBAN_POSITIONS.

(** [k] ends with [suffix]. *)
Fixpoint ends_with (suffix k : string) : bool :=
  if String.eqb k suffix then true
  else match k with
       | EmptyString => false
       | String _ k' => ends_with suffix k'
       end.

(** A number that is an integer. *)
Definition whole (x : Q) : Prop := x == inject_Z (Qfloor x).

(** The signal-quality classes as the specification words them. *)
Inductive classified (f : BLEWBANFrame) : SignalQuality -> Prop :=
  | classified_poor :
      rssi f < -70 \/ frameDecoded f = false -> classified f poor
  | classified_fair :
      ~ rssi f < -70 -> frameDecoded f = true -> rssi f < -60 -> classified f fair
  | classified_good :
      ~ rssi f < -70 -> frameDecoded f = true -> ~ rssi f < -60 -> rssi f < -50 ->
      classified f good
  | classified_excellent :
      ~ rssi f < -70 -> frameDecoded f = true -> ~ rssi f < -60 -> ~ rssi f < -50 ->
      classified f excellent.

(** ** Sample sessions and readings, and predicates on traces *)

(** The first reading of the first network reading of a fresh generator,
    when every [Math.random()] returns 0: the frame is not decoded. *)
Definition undecoded_session : list Event :=
  fst (session (fun _ => 0) (fun _ => 0%Z) [CallGenerateWBANReading "P001"] boot).

(** The first network reading of a fresh generator when every
    [Math.random()] returns 0.5: every frame is decoded and has RSSI -40. *)
Definition steady_session : list Event :=
  fst (session (fun _ => 0.5) (fun _ => 0%Z) [CallGenerateWBANReading "P001"] boot).

(** One frame of a fresh generator when every [Math.random()] returns 0.99. *)
Definition top_session : list Event :=
  fst (session (fun _ => 0.99) (fun _ => 0%Z)
         [CallGenerateBLEFrame "P001_chest" chest] boot).

(** The filters of [aggregateVitalSigns], named. *)
Definition not_poor (r : VitalSignsReading) : bool :=
  bool_decide (signalQuality r <> poor).

Definition is_connected (r : VitalSignsReading) : bool :=
  bool_decide (connectionStatus r = connected).

(** A reading of a frame that was not decoded. *)
Definition poor_reading : VitalSignsReading :=
  {| heartRate := 50; bloodPressure := {| systolic := 84; diastolic := 56 |};
     oxygenSaturation := 69; temperature := 69; timestamp := 0;
     signalQuality := poor; batteryLevel := 99.99; connectionStatus := weak |}.

(** A reading whose heart rate is not a whole number. *)
Definition fractional_reading : VitalSignsReading :=
  {| heartRate := 72.5; bloodPressure := {| systolic := 120; diastolic := 80 |};
     oxygenSaturation := 98; temperature := 98.6; timestamp := 0;
     signalQuality := excellent; batteryLevel := 100; connectionStatus := connected |}.

(** [l] is [c + 1, c + 2, ...]. *)
Definition consecutive_from (c : Z) (l : list Z) : Prop :=
  l = (fun i => (c + Z.of_nat i)%Z) <$> seq 1 (length l).

(** Battery levels reported while the counter went from [lo] to [hi]: none
    is above a later one, and all lie between the levels of the two counter
    values. *)
Definition drained (lo hi : Z) (l : list Q) : Prop :=
  StronglySorted (fun a b => b <= a) l /\
  Forall (fun x => batteryOf hi <= x <= batteryOf lo) l.

(** What [generateWBANReading] guarantees for the frame and the reading of
    one sensor, given the noise-factor map [factors] of the generator. *)
Definition unscaled_noise (factors : gmap string Q)
    (fr : BLEWBANFrame * VitalSignsReading) : Prop :=
  let f := fst fr in
  let r := snd fr in
  factors !! deviceId f = None /\
  or_default (factors !! deviceId f) 1 = 1 /\
  -50 <= rssi f < -30 /\
  signalQuality r = (if frameDecoded f then excellent else poor) /\
  signalQuality r <> fair /\
  signalQuality r <> good /\
  (connectionStatus r = connected \/ connectionStatus r = weak) /\
  connectionStatus r <> disconnected.

(** ** The monitoring component

    [PatientMonitoring] is the caller of the generator.  The source holds
    two revisions of it: the first simulates the vitals itself, the second
    polls [generateWBANReading].  The React state of a revision is a record,
    the interval callback a transformer of it, and the toasts it raises are
    appended to a log. *)

Inductive AlertLevel : Type :=
  | normal | warning | critical.

Record Toast : Type := {
  title : string;
  description : string;
  variant : option string
}.

(** [getVitalStatus], the same in both revisions.  Each [case] tests the
    warning range first and returns from it. *)
Definition getVitalStatus (vital : string) (value : Q) : string :=
  if String.eqb vital "heartRate" then
    if (value <? 60) || (value >? 100) then "warning"
    else if (value <? 50) || (value >? 120) then "critical"
    else "normal"
  else if String.eqb vital "oxygenSaturation" then
    if value <? 95 then "warning"
    else if value <? 90 then "critical"
    else "normal"
  else if String.eqb vital "temperature" then
    if (value >? 100.4) || (value <? 97) then "warning"
    else if (value >? 102) || (value <? 95) then "critical"
    else "normal"
  else "normal".

(** [getStatusColor], the same in both revisions. *)
Definition getStatusColor (status : string) : string :=
  if String.eqb status "critical" then "text-medical-emergency"
  else if String.eqb status "warning" then "text-medical-warning"
  else "text-medical-success".

(** The alert test of the interval callback, the same in both revisions,
    on the four vitals it reads. *)
Definition alertLevelOf (heartRate systolic oxygenSaturation temperature : Q)
  : AlertLevel :=
  if (heartRate >? 100) || (heartRate <? 60) || (systolic >? 140)
     || (oxygenSaturation <? 95) || (temperature >? 100.4)
  then
    if (heartRate >? 120) || (oxygenSaturation <? 90) then critical else warning
  else normal.

(** A signal-quality class as the string it is in the source. *)
Definition quality_string (q : SignalQuality) : string :=
  match q with
  | excellent => "excellent"
  | good => "good"
  | fair => "fair"
  | poor => "poor"
  end.

(** The first revision: vitals drawn afresh every three seconds. *)
Module SimulatedMonitoring.

Record VitalSigns : Type := {
  heartRate : Q;
  bloodPressure : BloodPressure;
  oxygenSaturation : Q;
  temperature : Q;
  timestamp : Z
}.

Record State : Type := {
  vitals : VitalSigns;
  isTransmitting : bool;
  encryptionStatus : string;
  alertLevel : AlertLevel;
  toasts : list Toast
}.

(** The initial [useState] values; [now] is the clock at mount. *)
Definition initial (now : Z) : State :=
  {| vitals := {| heartRate := 72;
                  bloodPressure := {| systolic := 120; diastolic := 80 |};
                  oxygenSaturation := 98;
                  temperature := 98.6;
                  timestamp := now |};
     isTransmitting := true;
     encryptionStatus := "encrypted";
     alertLevel := normal;
     toasts := [] |}.

(** The [setInterval] callback. *)
Definition tick (random : nat -> Q) (clock : nat -> Z) (st : State) : M State :=
  let* rh := Math_random random in
  let* rs := Math_random random in
  let* rd := Math_random random in
  let* ro := Math_random random in
  let* rt := Math_random random in
  let* now := Date_now clock in
  let newVitals :=
    {| heartRate := inject_Z (Math.floor (rh * 40) + 60);
       bloodPressure :=
         {| systolic := inject_Z (Math.floor (rs * 40) + 110);
            diastolic := inject_Z (Math.floor (rd * 30) + 70) |};
       oxygenSaturation := inject_Z (Math.floor (ro * 5) + 95);
       temperature := inject_Z (Math.round ((rt * 4 + 97) * 10)) / 10;
       timestamp := now |} in
  let level :=
    alertLevelOf (heartRate newVitals) (systolic (bloodPressure newVitals))
      (oxygenSaturation newVitals) (temperature newVitals) in
  ret {| vitals := newVitals;
         isTransmitting := isTransmitting st;
         encryptionStatus := encryptionStatus st;
         alertLevel := level;
         toasts :=
           match level with
           | critical =>
               toasts st ++
               [{| title := "CRITICAL ALERT";
                   description := "Patient requires immediate attention";
                   variant := Some "destructive" |}]
           | _ => toasts st
           end |}.

End SimulatedMonitoring.

(** The second revision: one generator per mounted component, polled every
    two seconds. *)
Module WBANMonitoring.

Record State : Type := {
  wbanData : option WBANReading;
  alertLevel : AlertLevel;
  toasts : list Toast
}.

Definition initial : State :=
  {| wbanData := None; alertLevel := normal; toasts := [] |}.

(** The [setInterval] callback; were [generateWBANReading] to throw, the
    callback would end there and leave the state as it was. *)
Definition tick (random : nat -> Q) (clock : nat -> Z) (patientId : string)
    (st : State) : M State :=
  let* newWbanData := generateWBANReading random clock patientId in
  match newWbanData with
  | None => ret st
  | Some newWbanData =>
      let vitals := vitals newWbanData in
      let level :=
        alertLevelOf (heartRate vitals) (systolic (bloodPressure vitals))
          (oxygenSaturation vitals) (temperature vitals) in
      ret {| wbanData := Some newWbanData;
             alertLevel := level;
             toasts :=
               match level with
               | critical =>
                   toasts st ++
                   [{| title := "CRITICAL ALERT";
                       description :=
                         "Patient " +:+ patientId
                         +:+ " requires immediate attention - Signal Quality: "
                         +:+ quality_string (signalQuality vitals);
                       variant := Some "destructive" |}]
               | _ => toasts st
               end |}
  end.

(** The component's life: mounted with a fresh generator, then [n] ticks. *)
Fixpoint ticks (random : nat -> Q) (clock : nat -> Z) (patientId : string)
    (n : nat) (st : State) : M State :=
  match n with
  | O => ret st
  | S n' =>
      let* st' := tick random clock patientId st in
      ticks random clock patientId n' st'
  end.

Definition mounted (random : nat -> Q) (clock : nat -> Z) (patientId : string)
    (n : nat) : M State :=
  constructor random ;; ticks random clock patientId n initial.

End WBANMonitoring.

(** ** Further predicates on generator states *)

(** Every stored noise factor is one the constructor can draw: the exact
    [random * 0.1 + 0.9] is below 1, and the source's doubles round it to 1
    for the largest draws. *)
Definition noise_values (g : BLEWBANDataGenerator) : Prop :=
  forall k v, signalNoiseFactors g !! k = Some v -> 0.9 <= v <= 1.

(** A reading with the heart rate and the oxygen saturation the derivation
    can report: at most the defaults. *)
Definition subdued (r : VitalSignsReading) : Prop :=
  35 <= heartRate r <= 72 /\ whole (heartRate r) /\ 59 <= oxygenSaturation r <= 98.

(** Every stored last reading is one. *)
Definition settled (g : BLEWBANDataGenerator) : Prop :=
  forall d r, lastReadings g !! d = Some r -> subdued r.

(** The number of [Math.random()] calls [extractVitalSigns] makes for a
    frame's position. *)
Definition positionDraws (pos : Position) : nat :=
  match pos with
  | chest | head => 1
  | wrist | arm | torso_back => 2
  | torso_front => 0
  end.

(** The base reading of [aggregateVitalSigns], as an expression of its
    own. *)
Definition baseReading (readings : list VitalSignsReading) : option VitalSignsReading :=
  first_defined
    (List.find (fun r => bool_decide (signalQuality r = excellent)) readings)
    (first_defined
       (List.filter (fun r => bool_decide (signalQuality r <> poor)) readings !! 0%nat)
       (readings !! 0%nat)).

(** What the polling monitor shows once it has ticked: a network reading
    with a heart rate at most the default, and a critical alert exactly for
    a low oxygen saturation. *)
Definition shows_subdued (st : WBANMonitoring.State) : Prop :=
  exists data,
    WBANMonitoring.wbanData st = Some data /\
    35 <= heartRate (vitals data) <= 72 /\
    (WBANMonitoring.alertLevel st = critical <-> oxygenSaturation (vitals data) < 90).

Definition critical_toasts (st : WBANMonitoring.State) : Prop :=
  Forall (fun t => title t = "CRITICAL ALERT") (WBANMonitoring.toasts st).

(** The stability weight of the heart-rate walk at a position, for the
    positions whose case derives a heart rate. *)
Definition heartRateStability (pos : Position) : option Q :=
  match pos with
  | chest => Some 0.8
  | wrist => Some 0.9
  | torso_back => Some 0.7
  | _ => None
  end.

(** ** Arithmetic of the [Math] fragment *)

Lemma Qltb_lt (x y : Q) : (x <? y) = true <-> x < y.
Proof.
  unfold Qltb. rewrite negb_true_iff, <- not_true_iff_false, Qle_bool_iff.
  split; [apply Qnot_le_lt | apply Qlt_not_le].
Qed.

Lemma Qltb_ge (x y : Q) : (x <? y) = false <-> y <= x.
Proof.
  unfold Qltb. rewrite negb_false_iff. apply Qle_bool_iff.
Qed.

Lemma Qgtb_gt (x y : Q) : (x >? y) = true <-> y < x.
Proof. apply Qltb_lt. Qed.

Lemma Qgtb_le (x y : Q) : (x >? y) = false <-> x <= y.
Proof. apply Qltb_ge. Qed.

Lemma max_lower (lo x : Q) : lo <= Math.max lo x.
Proof.
  unfold Math.max. destruct (Qle_bool lo x) eqn:E.
  - now apply Qle_bool_iff.
  - apply Qle_refl.
Qed.

Lemma max_arg (lo x : Q) : x <= Math.max lo x.
Proof.
  unfold Math.max. destruct (Qle_bool lo x) eqn:E.
  - apply Qle_refl.
  - apply Qlt_le_weak, Qnot_le_lt. rewrite <- Qle_bool_iff, E. discriminate.
Qed.

Lemma max_upper (lo hi x : Q) : lo <= hi -> x <= hi -> Math.max lo x <= hi.
Proof. unfold Math.max. now destruct (Qle_bool lo x). Qed.

Lemma min_upper (hi x : Q) : Math.min hi x <= hi.
Proof.
  unfold Math.min. destruct (Qle_bool hi x) eqn:E.
  - apply Qle_refl.
  - apply Qlt_le_weak, Qnot_le_lt. rewrite <- Qle_bool_iff, E. discriminate.
Qed.

Lemma min_lower (lo hi x : Q) : lo <= hi -> lo <= x -> lo <= Math.min hi x.
Proof. unfold Math.min. now destruct (Qle_bool hi x). Qed.

(** [Math.max(lo, Math.min(hi, x))] is in [lo, hi], whatever [x]. *)
Lemma clamp_band (lo hi x : Q) :
  lo <= hi -> lo <= Math.max lo (Math.min hi x) <= hi.
Proof.
  intros H. split; [apply max_lower | apply max_upper; [exact H | apply min_upper]].
Qed.

Lemma round_mono (x y : Q) : x <= y -> (Math.round x <= Math.round y)%Z.
Proof. intros H. unfold Math.round. apply Qfloor_resp_le. lra. Qed.

Lemma round_inject (z : Z) : Math.round (inject_Z z) = z.
Proof.
  unfold Math.round.
  assert (z <= Qfloor (inject_Z z + 0.5))%Z as Hlo.
  { rewrite <- (Qfloor_Z z) at 1. apply Qfloor_resp_le. lra. }
  assert (Qfloor (inject_Z z + 0.5) < z + 1)%Z as Hhi.
  { rewrite Zlt_Qlt, inject_Z_plus.
    assert (H := Qfloor_le (inject_Z z + 0.5)).
    change (inject_Z 1) with 1. lra. }
  lia.
Qed.

Lemma inject_Z_le (a b : Z) : (a <= b)%Z -> inject_Z a <= inject_Z b.
Proof. intros H. now rewrite <- Zle_Qle. Qed.

(** Scaling inside a band, then rounding, stays inside the scaled band. *)
Lemma round_scaled_band (lo hi q x : Q) :
  0 <= q -> lo <= x <= hi ->
  inject_Z (Math.round (lo * q)) <= inject_Z (Math.round (x * q))
    <= inject_Z (Math.round (hi * q)).
Proof.
  intros Hq [Hl Hu].
  split; apply inject_Z_le, round_mono; nra.
Qed.

Lemma qualityFactor_nonneg (s : SignalQuality) : 0 <= qualityFactor s.
Proof. destruct s; simpl; lra. Qed.

(** ** What each method does to the world and returns *)

Section Methods.

Variable random : nat -> Q.
Variable clock : nat -> Z.

Lemma positionVitals_this pos last w :
  this (snd (positionVitals random pos last w)) = this w.
Proof. destruct pos; reflexivity. Qed.

(** The base values are clamped, or are the in-band defaults. *)
Lemma positionVitals_bands pos last w :
  let b := fst (positionVitals random pos last w) in
  50 <= base_heartRate b <= 150 /\
  90 <= base_systolic b <= 180 /\
  60 <= base_diastolic b <= 120 /\
  85 <= base_oxygenSat b <= 100 /\
  95 <= base_temperature b <= 104.
Proof.
  destruct pos; cbn;
    repeat split;
    first [ apply max_lower
          | apply max_upper; [lra | apply min_upper]
          | lra ].
Qed.

(** The reading [extractVitalSigns] returns, field by field. *)
Lemma extractVitalSigns_reading f w :
  let b := fst (positionVitals random (position f)
                  (lastReadings (this w) !! deviceId f) w) in
  let q := qualityFactor (classify f) in
  fst (extractVitalSigns random f w) =
    {| heartRate := inject_Z (Math.round (base_heartRate b * q));
       bloodPressure :=
         {| systolic := inject_Z (Math.round (base_systolic b * q));
            diastolic := inject_Z (Math.round (base_diastolic b * q)) |};
       oxygenSaturation := inject_Z (Math.round (base_oxygenSat b * q));
       temperature := inject_Z (Math.round (base_temperature b * q * 10)) / 10;
       timestamp := frame_timestamp f;
       signalQuality := classify f;
       batteryLevel := batteryOf (frameCounter (this w));
       connectionStatus :=
         if signalStrength f >? 70 then connected
         else if signalStrength f >? 40 then weak
         else disconnected |}.
Proof.
  unfold extractVitalSigns, bind, get_this, set_this, ret. cbn.
  pose proof (positionVitals_this (position f)
                (lastReadings (this w) !! deviceId f) w) as Hthis.
  destruct (positionVitals random (position f)
              (lastReadings (this w) !! deviceId f) w) as [b w'].
  cbn in *. now rewrite Hthis.
Qed.

(** [extractVitalSigns] writes the last reading of the frame's device and
    nothing else. *)
Lemma extractVitalSigns_this f w :
  this (snd (extractVitalSigns random f w)) =
    {| frameCounter := frameCounter (this w);
       lastReadings :=
         <[ deviceId f := fst (extractVitalSigns random f w) ]> (lastReadings (this w));
       signalNoiseFactors := signalNoiseFactors (this w) |}.
Proof.
  unfold extractVitalSigns, bind, get_this, set_this, ret. cbn.
  pose proof (positionVitals_this (position f)
                (lastReadings (this w) !! deviceId f) w) as Hthis.
  destruct (positionVitals random (position f)
              (lastReadings (this w) !! deviceId f) w) as [b w'].
  cbn in *. now rewrite Hthis.
Qed.

(** The frame [generateBLEFrame] returns and the world it leaves, for
    the fields the properties below are about. *)
Lemma generateBLEFrame_spec d p w :
  let f := fst (generateBLEFrame random clock d p w) in
  let w' := snd (generateBLEFrame random clock d p w) in
  this w' = {| frameCounter := frameCounter (this w) + 1;
               lastReadings := lastReadings (this w);
               signalNoiseFactors := signalNoiseFactors (this w) |} /\
  frameNumber f = (frameCounter (this w) + 1)%Z /\
  deviceId f = d /\
  position f = p /\
  (exists k, channelNumber f = channel_at (Math.floor (random k * 39))) /\
  frequency f = (2402000000 + channelNumber f * 2000000)%Z /\
  (exists k, rssi f = -40 + (random k * 20 - 10)
                            * (1 / or_default (signalNoiseFactors (this w) !! d) 1)) /\
  signalStrength f = Math.max 0 (Math.min 100 ((rssi f + 100) * 1.25)) /\
  (exists k, frameDecoded f = (random k >? 0.05)).
Proof.
  unfold generateBLEFrame, bind, get_this, set_this, ret, Math_random, Date_now.
  cbn -[Math.max Math.min channel_at Math.floor or_default Qgtb
        Qmult Qplus Qminus Qdiv Qopp Z.mul Z.add].
  destruct (random (random_calls w) >? 0.7);
    cbn -[Math.max Math.min channel_at Math.floor or_default Qgtb
          Qmult Qplus Qminus Qdiv Qopp Z.mul Z.add];
    repeat split; eauto.
Qed.

End Methods.

(** ** Loops *)

Lemma forEach_invariant {A B} (I : World -> Prop) (P : B -> Prop)
    (f : A -> M B) (l : list A) :
  (forall a w, a ∈ l -> I w -> P (fst (f a w)) /\ I (snd (f a w))) ->
  forall w, I w ->
    Forall P (fst (forEach l f w)) /\ I (snd (forEach l f w)).
Proof.
  induction l as [|a l IH]; intros Hf w Hw.
  - split; [constructor | exact Hw].
  - cbn. unfold bind.
    destruct (Hf a w) as [Hp Hi]; [left | exact Hw |].
    destruct (f a w) as [b w1]. cbn in Hp, Hi.
    destruct (IH (fun a' w' Ha => Hf a' w' (list_elem_of_further _ _ _ Ha)) w1 Hi)
      as [Hps Hi'].
    destruct (forEach l f w1) as [bs w2]. cbn in *.
    split; [constructor; assumption | assumption].
Qed.

Lemma forEach_length {A B} (f : A -> M B) (l : list A) w :
  length (fst (forEach l f w)) = length l.
Proof.
  revert w. induction l as [|a l IH]; intros w; [reflexivity|].
  cbn. unfold bind. destruct (f a w) as [b w1].
  specialize (IH w1). destruct (forEach l f w1) as [bs w2]. cbn in *. now rewrite IH.
Qed.

(** ** Device identifiers *)

Lemma ends_with_unfold (suffix k : string) :
  ends_with suffix k =
    if String.eqb k suffix then true
    else match k with
         | EmptyString => false
         | String _ k' => ends_with suffix k'
         end.
Proof. destruct k; reflexivity. Qed.

Lemma ends_with_append (p s : string) : ends_with s (p +:+ s) = true.
Proof.
  induction p as [|a p IH].
  - cbn. now rewrite ends_with_unfold, String.eqb_refl.
  - rewrite ends_with_unfold.
    change (String a p +:+ s) with (String a (p +:+ s)).
    now destruct (String.eqb (String a (p +:+ s)) s).
Qed.

(** No [patientId] makes the composite device id [patientId_sensorId]
    coincide with a bare sensor id. *)
Lemma composite_id_fresh (patientId : string) (sensor : SensorPosition) :
  sensor ∈ WBAN_POSITIONS ->
  patientId +:+ "_" +:+ id sensor ∉ id <$> WBAN_POSITIONS.
Proof.
  intros Hs Hk.
  pose proof (ends_with_append patientId ("_" +:+ id sensor)) as E.
  unfold WBAN_POSITIONS in Hs, Hk.
  repeat (apply elem_of_cons in Hs as [-> | Hs]); try (now apply elem_of_nil in Hs);
    cbn in Hk, E;
    repeat (apply elem_of_cons in Hk as [Hk | Hk]); try (now apply elem_of_nil in Hk);
    rewrite Hk in E; vm_compute in E; discriminate E.
Qed.

(** ** Signal-quality classification *)

(** C5: for every input frame, the derived reading is classified poor if
    RSSI < -70 or the decode flag is false, otherwise fair if RSSI < -60,
    otherwise good if RSSI < -50, otherwise excellent; the class is the only
    one the frame admits. *)
Theorem C5_signal_quality_precedence (random : nat -> Q) (f : BLEWBANFrame) (w : World) :
  classified f (signalQuality (fst (extractVitalSigns random f w))) /\
  (forall q, classified f q -> q = signalQuality (fst (extractVitalSigns random f w))).
Proof.
  rewrite extractVitalSigns_reading. cbn. unfold classify.
  destruct (rssi f <? -70) eqn:E70;
    [apply Qltb_lt in E70 | apply Qltb_ge in E70];
    (destruct (frameDecoded f) eqn:Ed; cbn);
    try (split; [constructor; auto | intros q Hq; inversion Hq; intuition (lra || congruence)]).
  destruct (rssi f <? -60) eqn:E60;
    [apply Qltb_lt in E60 | apply Qltb_ge in E60];
    [|destruct (rssi f <? -50) eqn:E50;
        [apply Qltb_lt in E50 | apply Qltb_ge in E50]];
    (split; [constructor; auto; lra
            | intros q Hq; inversion Hq; intuition (lra || congruence)]).
Qed.

(** ** Bands of the derived vitals *)

Lemma Qdiv10_le (a b : Z) : (a <= b)%Z -> inject_Z a / 10 <= inject_Z b / 10.
Proof.
  intros H. apply inject_Z_le in H. unfold Qdiv.
  apply Qmult_le_compat_r; [exact H | discriminate].
Qed.

(** A bound that follows from a hypothesis with a closed bound. *)
Ltac lower_from H :=
  match type of H with
  | ?b <= _ => apply (Qle_trans _ b); [vm_compute; discriminate | exact H]
  end.
Ltac upper_from H :=
  match type of H with
  | _ <= ?b => apply (Qle_trans _ b); [exact H | vm_compute; discriminate]
  end.

(** Whatever the frame and the stored state, the reading lies in the
    documented bands scaled by the quality factor of its class. *)
Lemma extractVitalSigns_scaled_bands (random : nat -> Q) (f : BLEWBANFrame) (w : World) :
  scaled_bands (qualityFactor (classify f)) (fst (extractVitalSigns random f w)).
Proof.
  rewrite extractVitalSigns_reading. unfold scaled_bands.
  cbn -[Math.round Qmult Qdiv inject_Z].
  destruct (positionVitals_bands random (position f)
              (lastReadings (this w) !! deviceId f) w) as (Hh & Hs & Hd & Ho & Ht).
  pose proof (qualityFactor_nonneg (classify f)) as Hq.
  repeat split;
    first [ apply inject_Z_le, round_mono, Qmult_le_compat_r; tauto
          | apply Qdiv10_le, round_mono, Qmult_le_compat_r;
            [apply Qmult_le_compat_r; tauto | discriminate] ].
Qed.

(** C1, as stated, fails: the chest reading derived from a frame that was
    not decoded is scaled by 0.7 after clamping and leaves every band. *)
Lemma C1_counterexample :
  exists r, readingsOf undecoded_session !! 0%nat = Some r /\
            signalQuality r = poor /\
            heartRate r == 37 /\
            ~ documented_bands r.
Proof.
  eexists. split; [vm_compute; reflexivity|].
  split; [reflexivity|]. split; [reflexivity|].
  intros [[H _] _]. vm_compute in H. now apply H.
Qed.

(** C1 (amended): for every call, regardless of the stored last readings
    and of the frame's fields, every returned vital lies in the band of the
    reading's signal-quality class: the documented band when the class is
    excellent, and otherwise the documented band scaled by the class's
    quality factor (heart rate in [48,143] for good, [43,128] for fair,
    [35,105] for poor, and so on as [class_bands] lists them). *)
Theorem C1_vitals_in_class_bands (random : nat -> Q) (f : BLEWBANFrame) (w : World) :
  let r := fst (extractVitalSigns random f w) in
  class_bands (signalQuality r) r /\
  (signalQuality r = excellent -> documented_bands r).
Proof.
  cbn zeta.
  pose proof (extractVitalSigns_scaled_bands random f w) as H.
  assert (signalQuality (fst (extractVitalSigns random f w)) = classify f) as Hc
    by now rewrite extractVitalSigns_reading.
  rewrite Hc.
  assert (class_bands (classify f) (fst (extractVitalSigns random f w))) as Hb.
  { destruct H as ((H1 & H2) & (H3 & H4) & (H5 & H6) & (H7 & H8) & (H9 & H10)).
    destruct (classify f); unfold class_bands, within_bands;
      (repeat split;
       [ lower_from H1 | upper_from H2 | lower_from H3 | upper_from H4 | lower_from H5
       | upper_from H6 | lower_from H7 | upper_from H8 | lower_from H9
       | upper_from H10 ]). }
  split; [exact Hb|].
  intros E. rewrite E in Hb. exact Hb.
Qed.

(** ** The oxygen-saturation walk of wrist sensors *)






(** ** Channel and carrier frequency *)

Lemma BLE_CHANNELS_members :
  Forall (fun c => (0 <= c <= 39)%Z /\ c <> 11%Z) BLE_CHANNELS.
Proof. unfold BLE_CHANNELS. repeat constructor; lia. Qed.

(** [Math.floor(Math.random() * BLE_CHANNELS.length)] is a valid index. *)
Lemma channel_index_in_bounds (u : Q) :
  0 <= u < 1 -> (0 <= Math.floor (u * 39) < 39)%Z.
Proof.
  intros [H0 H1]. unfold Math.floor. split.
  - change 0%Z with (Qfloor 0). apply Qfloor_resp_le. lra.
  - rewrite Zlt_Qlt. eapply Qle_lt_trans; [apply Qfloor_le|].
    change (inject_Z 39) with 39. lra.
Qed.

Lemma channel_at_member (i : Z) :
  (0 <= i < 39)%Z -> In (channel_at i) BLE_CHANNELS.
Proof.
  intros Hi. unfold channel_at. apply nth_In.
  change (length BLE_CHANNELS) with 39%nat. lia.
Qed.

(** C4, as stated, fails: a draw of 0.99 selects the last entry of the
    channel list, channel 39, which is outside the worded set. *)
Lemma C4_counterexample :
  exists f, framesOf top_session !! 0%nat = Some f /\
            channelNumber f = 39%Z /\
            frequency f = 2480000000%Z /\
            ~ worded_channel_set (channelNumber f).
Proof.
  eexists. split; [vm_compute; reflexivity|].
  split; [reflexivity|]. split; [reflexivity|].
  cbn [channelNumber]. unfold worded_channel_set. lia.
Qed.

(** C4 (amended): for every generated frame the channel number is a member
    of the 39-entry list 0..10, 12..39 (so between 0 and 39 and not 11; the
    list has three entries above 36: 37, 38 and 39), and the carrier
    frequency is 2402000000 + channelNumber * 2000000 Hz. *)
Theorem C4_channel_and_frequency (random : nat -> Q) (clock : nat -> Z)
    (d : string) (p : Position) (w : World) :
  unit_interval random ->
  let f := fst (generateBLEFrame random clock d p w) in
  In (channelNumber f) BLE_CHANNELS /\
  length BLE_CHANNELS = 39%nat /\
  ((0 <= channelNumber f <= 39)%Z /\ channelNumber f <> 11%Z) /\
  frequency f = (2402000000 + channelNumber f * 2000000)%Z.
Proof.
  intros Hr f.
  destruct (generateBLEFrame_spec random clock d p w)
    as (_ & _ & _ & _ & [k Hk] & Hf & _).
  fold f in Hk, Hf.
  assert (In (channelNumber f) BLE_CHANNELS) as Hin.
  { rewrite Hk. apply channel_at_member, channel_index_in_bounds, Hr. }
  split; [exact Hin|]. split; [reflexivity|]. split; [|exact Hf].
  pose proof BLE_CHANNELS_members as Hall.
  rewrite List.Forall_forall in Hall. now apply Hall.
Qed.

Lemma C4_channel_and_frequency_witness :
  let f := fst (generateBLEFrame (fun _ => 0.5) (fun _ => 0%Z) "P001_chest" chest boot) in
  In (channelNumber f) BLE_CHANNELS /\
  length BLE_CHANNELS = 39%nat /\
  ((0 <= channelNumber f <= 39)%Z /\ channelNumber f <> 11%Z) /\
  frequency f = (2402000000 + channelNumber f * 2000000)%Z.
Proof.
  apply (C4_channel_and_frequency (fun _ => 0.5) (fun _ => 0%Z) "P001_chest" chest boot).
  intros k. split; [discriminate | reflexivity].
Defined.

(** ** The noise factor of a frame *)

(** C2: the code at the failing input.  On a fresh generator whose
    constructor assigned the chest sensor the noise factor 0.9, the frame
    generated for device [P001_chest] (the id [generateWBANReading] passes)
    finds no factor under its id and has RSSI -40 + noise * (1 / 1), not
    -40 + noise * (1 / 0.9). *)
Theorem C2_noise_factor_not_applied :
  let w := snd (constructor (fun _ => 0) boot) in
  let f := fst (generateBLEFrame (fun _ => 0) (fun _ => 0%Z) "P001_chest" chest w) in
  (exists nf, signalNoiseFactors (this w) !! "chest" = Some nf /\
              nf == 0.9 /\
              ~ rssi f == -40 + (0 * 20 - 10) * (1 / nf)) /\
  signalNoiseFactors (this w) !! "P001_chest" = None /\
  rssi f == -40 + (0 * 20 - 10) * (1 / 1).
Proof.
  cbn zeta. split; [|split; [vm_compute; reflexivity | reflexivity]].
  eexists. split; [vm_compute; reflexivity|].
  split; [reflexivity|]. intros H. vm_compute in H. discriminate H.
Qed.

(** ** Aggregation *)

(** [g > n / 2] on lengths. *)
Lemma more_than_half (g n : nat) :
  (inject_Z (Z.of_nat g) >? inject_Z (Z.of_nat n) / 2) = true <-> (n < 2 * g)%nat.
Proof.
  rewrite Qgtb_gt.
  assert (inject_Z (Z.of_nat n) / 2 < inject_Z (Z.of_nat g)
          <-> inject_Z (Z.of_nat n) < inject_Z (2 * Z.of_nat g)) as ->.
  { rewrite inject_Z_mult. change (inject_Z 2) with 2.
    assert (inject_Z (Z.of_nat n) == inject_Z (Z.of_nat n) / 2 * 2) as E by field.
    set (h := inject_Z (Z.of_nat n) / 2) in *. lra. }
  rewrite <- Zlt_Qlt. lia.
Qed.

(** On a non-empty sequence a base reading exists, and the aggregate is the
    base reading with three fields overridden. *)
Lemma aggregateVitalSigns_fields (readings : list VitalSignsReading) :
  readings <> [] ->
  exists best agg,
    aggregateVitalSigns readings = Some agg /\
    In best readings /\
    bloodPressure agg = bloodPressure best /\
    oxygenSaturation agg = oxygenSaturation best /\
    temperature agg = temperature best /\
    timestamp agg = timestamp best /\
    batteryLevel agg = batteryLevel best /\
    signalQuality agg =
      (if inject_Z (Z.of_nat (length (List.filter not_poor readings)))
          >? inject_Z (Z.of_nat (length readings)) / 2
       then good else fair) /\
    connectionStatus agg =
      (if forallb is_connected readings then connected
       else if existsb is_connected readings then weak else disconnected).
Proof.
  intros Hne. unfold aggregateVitalSigns.
  fold not_poor. fold is_connected.
  assert (exists best,
    first_defined
      (List.find (fun r => bool_decide (signalQuality r = excellent)) readings)
      (first_defined (List.filter not_poor readings !! 0%nat) (readings !! 0%nat))
    = Some best /\ In best readings) as (best & -> & Hin).
  { destruct (List.find _ readings) as [x|] eqn:Ef.
    - exists x. split; [reflexivity|]. now apply find_some in Ef.
    - destruct (List.filter not_poor readings) as [|y ys] eqn:Eg.
      + destruct readings as [|r0 rs]; [congruence|].
        exists r0. split; [reflexivity | now left].
      + exists y. split; [reflexivity|].
        assert (In y (List.filter not_poor readings)) as Hy by (rewrite Eg; now left).
        now apply filter_In in Hy. }
  eexists best, _. split; [reflexivity|]. cbn. auto 10.
Qed.

Lemma filter_not_poor (readings : list VitalSignsReading) :
  List.filter not_poor readings = filter (fun r => signalQuality r <> poor) readings.
Proof.
  induction readings as [|r rs IH]; [reflexivity|].
  cbn [List.filter]. rewrite filter_cons, IH. unfold not_poor.
  destruct (decide (signalQuality r <> poor)) as [H|H].
  - now rewrite bool_decide_eq_true_2.
  - now rewrite bool_decide_eq_false_2.
Qed.

Lemma all_connected (readings : list VitalSignsReading) :
  forallb is_connected readings = true
  <-> Forall (fun r => connectionStatus r = connected) readings.
Proof.
  rewrite forallb_forall, List.Forall_forall. unfold is_connected.
  split; intros H x Hx; specialize (H x Hx);
    [eapply bool_decide_eq_true_1 | eapply bool_decide_eq_true_2]; exact H.
Qed.

Lemma some_connected (readings : list VitalSignsReading) :
  existsb is_connected readings = true
  <-> Exists (fun r => connectionStatus r = connected) readings.
Proof.
  rewrite existsb_exists, List.Exists_exists. unfold is_connected.
  split; intros (x & Hx & H); exists x; (split; [exact Hx|]);
    [eapply bool_decide_eq_true_1 | eapply bool_decide_eq_true_2]; exact H.
Qed.

Lemma all_poor_none_left (readings : list VitalSignsReading) :
  Forall (fun r => signalQuality r = poor) readings ->
  filter (fun r => signalQuality r <> poor) readings = [].
Proof.
  induction 1 as [|r rs Hr _ IH]; [reflexivity|].
  rewrite filter_cons_False; [apply IH | congruence].
Qed.

(** C6: for every non-empty sequence of readings, the aggregate quality is
    good if more than half of the readings are not poor and fair otherwise;
    the aggregate connection is connected if all readings are connected,
    else weak if at least one is, else disconnected; so all-poor readings
    aggregate to fair and, if none is connected, to disconnected. *)
Theorem C6_aggregate_quality_and_connection (readings : list VitalSignsReading) :
  readings <> [] ->
  exists agg,
    aggregateVitalSigns readings = Some agg /\
    let non_poor := length (filter (fun r => signalQuality r <> poor) readings) in
    let all_up := Forall (fun r => connectionStatus r = connected) readings in
    let some_up := Exists (fun r => connectionStatus r = connected) readings in
    ((length readings < 2 * non_poor)%nat -> signalQuality agg = good) /\
    (~ (length readings < 2 * non_poor)%nat -> signalQuality agg = fair) /\
    (all_up -> connectionStatus agg = connected) /\
    (~ all_up -> some_up -> connectionStatus agg = weak) /\
    (~ some_up -> connectionStatus agg = disconnected) /\
    (Forall (fun r => signalQuality r = poor) readings ->
     signalQuality agg = fair /\
     (Forall (fun r => connectionStatus r <> connected) readings ->
      connectionStatus agg = disconnected)).
Proof.
  intros Hne.
  destruct (aggregateVitalSigns_fields readings Hne)
    as (best & agg & Hagg & _ & _ & _ & _ & _ & _ & Hq & Hc).
  exists agg. split; [exact Hagg|]. cbn zeta.
  rewrite filter_not_poor in Hq.
  assert ((length readings
           < 2 * length (filter (fun r => signalQuality r <> poor) readings))%nat
          -> signalQuality agg = good) as Hgood.
  { intros H. apply more_than_half in H. now rewrite H in Hq. }
  assert (~ (length readings
             < 2 * length (filter (fun r => signalQuality r <> poor) readings))%nat
          -> signalQuality agg = fair) as Hfair.
  { intros H. rewrite <- more_than_half in H.
    now destruct (_ >? _) in Hq, H. }
  assert (~ Exists (fun r => connectionStatus r = connected) readings
          -> connectionStatus agg = disconnected) as Hdown.
  { intros H. rewrite <- some_connected in H.
    destruct (forallb is_connected readings) eqn:Ea.
    - exfalso. destruct readings as [|r0 rs]; [congruence|].
      cbn in Ea, H. apply andb_true_iff in Ea as [Ea _]. now rewrite Ea in H.
    - now destruct (existsb is_connected readings). }
  repeat split.
  - exact Hgood.
  - exact Hfair.
  - intros H. apply all_connected in H. now rewrite H in Hc.
  - intros Hall Hsome. rewrite <- all_connected in Hall.
    apply some_connected in Hsome. rewrite Hsome in Hc.
    now destruct (forallb is_connected readings).
  - exact Hdown.
  - apply Hfair.
    rewrite (all_poor_none_left readings H). cbn. lia.
  - intros Hnone. apply Hdown. intros Hex.
    apply List.Exists_exists in Hex as (x & Hx & Hcx).
    rewrite List.Forall_forall in Hnone. now apply (Hnone x).
Qed.

Lemma C6_aggregate_quality_and_connection_witness :
  exists agg,
    aggregateVitalSigns [poor_reading; poor_reading] = Some agg /\
    signalQuality agg = fair /\ connectionStatus agg = disconnected.
Proof.
  destruct (C6_aggregate_quality_and_connection [poor_reading; poor_reading])
    as (agg & Hagg & _ & _ & _ & _ & _ & Hpoor).
  - discriminate.
  - exists agg. split; [exact Hagg|].
    destruct Hpoor as [Hq Hc].
    + repeat constructor.
    + split; [exact Hq|]. apply Hc. repeat constructor; discriminate.
Defined.

(** Outside the readings the generator derives, the rounding of the mean
    shows: a single reading with heart rate 72.5 aggregates to heart rate
    73. *)
Example aggregate_rounds_fractional_heart_rate :
  exists agg,
    aggregateVitalSigns [fractional_reading] = Some agg /\
    heartRate agg == 73 /\
    ~ heartRate agg == heartRate fractional_reading.
Proof.
  eexists. split; [vm_compute; reflexivity|].
  split; [reflexivity|]. intros H. vm_compute in H. discriminate H.
Qed.

Lemma round_whole (x : Q) : whole x -> inject_Z (Math.round x) == x.
Proof.
  unfold whole. intros H.
  assert (Math.round x = Math.round (inject_Z (Qfloor x))) as ->.
  { unfold Math.round. apply Qfloor_comp. now rewrite <- H. }
  now rewrite round_inject.
Qed.

(** The base reading of a single-element sequence is its element. *)
Lemma singleton_base (r : VitalSignsReading) :
  first_defined
    (List.find (fun r => bool_decide (signalQuality r = excellent)) [r])
    (first_defined
       (List.filter (fun r => bool_decide (signalQuality r <> poor)) [r] !! 0%nat)
       ([r] !! 0%nat)) = Some r.
Proof.
  cbn. now destruct (bool_decide (signalQuality r = excellent)),
         (bool_decide (signalQuality r <> poor)).
Qed.

(** Aggregation of a single reading with a whole-number heart rate, or
    with a heart rate that is not positive, keeps the heart rate and the
    fields it does not override. *)
Lemma aggregate_singleton_whole (r : VitalSignsReading) :
  whole (heartRate r) \/ heartRate r <= 0 ->
  exists agg,
    aggregateVitalSigns [r] = Some agg /\
    heartRate agg == heartRate r /\
    bloodPressure agg = bloodPressure r /\
    oxygenSaturation agg = oxygenSaturation r /\
    temperature agg = temperature r /\
    timestamp agg = timestamp r /\
    batteryLevel agg = batteryLevel r.
Proof.
  intros Hhr.
  unfold aggregateVitalSigns. rewrite singleton_base.
  eexists. split; [reflexivity|].
  cbn [heartRate bloodPressure oxygenSaturation temperature timestamp batteryLevel].
  split; [|auto 10].
  cbn [List.filter].
  destruct (heartRate r >? 0) eqn:Epos.
  - cbn [length fold_left].
    change (inject_Z (Z.of_nat 1) >? 0) with true. cbn iota.
    apply Qgtb_gt in Epos.
    destruct Hhr as [Hw | Hneg]; [|lra].
    assert (Math.round ((0 + heartRate r) / inject_Z (Z.of_nat 1))
            = Math.round (heartRate r)) as ->.
    { unfold Math.round. apply Qfloor_comp.
      change (inject_Z (Z.of_nat 1)) with 1. field. }
    now apply round_whole.
  - reflexivity.
Qed.

(** C7: aggregation applied to a single-element reading sequence returns a
    reading whose heart rate equals that reading's heart rate and whose
    blood pressure, oxygen saturation, temperature, timestamp and battery
    level are those of the input reading, for every reading the generator
    derives, the only readings the aggregation receives: their heart rates
    are whole numbers, which the rounding of the mean leaves as they are. *)
Theorem C7_aggregate_singleton_keeps_reading (random : nat -> Q) (f : BLEWBANFrame)
    (w : World) :
  let r := fst (extractVitalSigns random f w) in
  exists agg,
    aggregateVitalSigns [r] = Some agg /\
    heartRate agg = heartRate r /\
    bloodPressure agg = bloodPressure r /\
    oxygenSaturation agg = oxygenSaturation r /\
    temperature agg = temperature r /\
    timestamp agg = timestamp r /\
    batteryLevel agg = batteryLevel r.
Proof.
  intros r.
  unfold aggregateVitalSigns. rewrite singleton_base.
  eexists. split; [reflexivity|].
  cbn [heartRate bloodPressure oxygenSaturation temperature timestamp batteryLevel].
  split; [|auto 10].
  cbn [List.filter].
  destruct (heartRate r >? 0) eqn:Epos; [|reflexivity].
  cbn [length fold_left].
  change (inject_Z (Z.of_nat 1) >? 0) with true. cbn iota.
  subst r. rewrite extractVitalSigns_reading. cbn [heartRate].
  f_equal.
  match goal with
  | |- Math.round ((0 + inject_Z ?z) / _) = _ =>
      rewrite <- (round_inject z) at 2
  end.
  unfold Math.round. apply Qfloor_comp.
  change (inject_Z (Z.of_nat 1)) with 1. field.
Qed.

(** ** Sessions: frame numbers *)

Lemma consecutive_from_app (c : Z) (l1 l2 : list Z) :
  consecutive_from c l1 ->
  consecutive_from (c + Z.of_nat (length l1)) l2 ->
  consecutive_from c (l1 ++ l2).
Proof.
  unfold consecutive_from. intros H1 H2.
  rewrite length_app, seq_app, fmap_app. f_equal; [exact H1|].
  rewrite H2 at 1. rewrite Nat.add_comm, <- fmap_add_seq, <- list_fmap_compose.
  apply list_fmap_ext. intros _ i _. cbn. lia.
Qed.

Section Sessions.

Variable random : nat -> Q.
Variable clock : nat -> Z.

(** The callback of the sensor loop is a frame generation followed by the
    derivation from that frame. *)
Lemma readSensor_unfold patientId sensor w :
  let f := fst (generateBLEFrame random clock
                  (patientId +:+ "_" +:+ id sensor) (sensor_position sensor) w) in
  let w1 := snd (generateBLEFrame random clock
                   (patientId +:+ "_" +:+ id sensor) (sensor_position sensor) w) in
  readSensor random clock patientId sensor w
  = ((f, fst (extractVitalSigns random f w1)), snd (extractVitalSigns random f w1)).
Proof.
  unfold readSensor, bind, ret. cbn zeta.
  destruct (generateBLEFrame random clock _ _ w) as [f w1]. cbn [fst snd].
  now destruct (extractVitalSigns random f w1).
Qed.

Lemma readSensor_frame patientId sensor w :
  frameNumber (fst (fst (readSensor random clock patientId sensor w)))
    = (frameCounter (this w) + 1)%Z /\
  frameCounter (this (snd (readSensor random clock patientId sensor w)))
    = (frameCounter (this w) + 1)%Z.
Proof.
  rewrite readSensor_unfold. cbn [fst snd].
  rewrite extractVitalSigns_this. cbn [frameCounter].
  destruct (generateBLEFrame_spec random clock
              (patientId +:+ "_" +:+ id sensor) (sensor_position sensor) w)
    as (Hw & Hn & _).
  now rewrite Hw, Hn.
Qed.

Lemma framesOf_app evs evs' : framesOf (evs ++ evs') = framesOf evs ++ framesOf evs'.
Proof. apply flat_map_app. Qed.

Lemma framesOf_collected (collected : list (BLEWBANFrame * VitalSignsReading)) :
  framesOf (flat_map (fun fr => [FrameGenerated (fst fr); VitalsExtracted (snd fr)])
              collected)
  = map fst collected.
Proof.
  induction collected as [|fr l IH]; [reflexivity|].
  cbn. f_equal. exact IH.
Qed.

(** The frames of the sensor loop are numbered from the counter on. *)
Lemma sensor_loop_frames patientId (sensors : list SensorPosition) w :
  let collected := fst (forEach sensors (readSensor random clock patientId) w) in
  let w' := snd (forEach sensors (readSensor random clock patientId) w) in
  consecutive_from (frameCounter (this w)) (frameNumber <$> map fst collected) /\
  frameCounter (this w')
    = (frameCounter (this w) + Z.of_nat (length (map fst collected)))%Z.
Proof.
  revert w. induction sensors as [|s l IH]; intros w.
  - cbn. split; [reflexivity | lia].
  - cbn [forEach]. unfold bind.
    destruct (readSensor_frame patientId s w) as [Hn Hc].
    destruct (readSensor random clock patientId s w) as [fr w1].
    cbn [fst snd] in Hn, Hc.
    specialize (IH w1). cbn zeta in IH.
    destruct (forEach l (readSensor random clock patientId) w1) as [frs w2].
    cbn [fst snd ret map length] in *.
    destruct IH as [IH1 IH2]. rewrite Hc in IH1, IH2.
    split; [|lia].
    change (frameNumber <$> fst fr :: map fst frs)
      with ([frameNumber (fst fr)] ++ (frameNumber <$> map fst frs)).
    apply consecutive_from_app.
    + unfold consecutive_from. cbn. now rewrite Hn.
    + exact IH1.
Qed.

Lemma perform_frames (c : Call) w :
  let evs := fst (perform random clock c w) in
  let w' := snd (perform random clock c w) in
  consecutive_from (frameCounter (this w)) (frameNumber <$> framesOf evs) /\
  frameCounter (this w')
    = (frameCounter (this w) + Z.of_nat (length (framesOf evs)))%Z.
Proof.
  destruct c as [d p | f | patientId]; cbn [perform]; unfold bind, ret.
  - destruct (generateBLEFrame_spec random clock d p w) as (Hw & Hn & _).
    destruct (generateBLEFrame random clock d p w) as [f w1].
    cbn [fst snd framesOf flat_map app length] in *.
    rewrite Hw. cbn [frameCounter]. split; [|lia].
    unfold consecutive_from. cbn. now rewrite Hn.
  - pose proof (extractVitalSigns_this random f w) as Hw.
    destruct (extractVitalSigns random f w) as [r w1].
    cbn [fst snd framesOf flat_map app length] in *.
    rewrite Hw. cbn. split; [reflexivity | lia].
  - pose proof (sensor_loop_frames patientId WBAN_POSITIONS w) as H.
    unfold sensorReadings.
    destruct (forEach WBAN_POSITIONS (readSensor random clock patientId) w)
      as [collected w1].
    cbn [fst snd] in *. now rewrite framesOf_collected.
Qed.

Lemma performAll_frames (cs : list Call) w :
  let evs := fst (performAll random clock cs w) in
  let w' := snd (performAll random clock cs w) in
  consecutive_from (frameCounter (this w)) (frameNumber <$> framesOf evs) /\
  frameCounter (this w')
    = (frameCounter (this w) + Z.of_nat (length (framesOf evs)))%Z.
Proof.
  revert w. induction cs as [|c cs IH]; intros w.
  - cbn. split; [reflexivity | lia].
  - cbn [performAll]. unfold bind, ret.
    destruct (perform_frames c w) as [H1 H2].
    destruct (perform random clock c w) as [evs w1]. cbn [fst snd] in H1, H2.
    destruct (IH w1) as [H3 H4].
    destruct (performAll random clock cs w1) as [evs' w2]. cbn [fst snd] in *.
    rewrite framesOf_app, fmap_app, length_app.
    rewrite H2 in H3, H4. split; [|lia].
    apply consecutive_from_app; [exact H1|].
    now rewrite length_fmap.
Qed.

(** A fresh instance has counter 0. *)
Lemma constructor_counter w :
  frameCounter (this (snd (constructor random w))) = 0%Z.
Proof. reflexivity. Qed.

End Sessions.

Lemma seq_strictly_increasing (a n : nat) :
  StronglySorted Z.lt (Z.of_nat <$> seq a n).
Proof.
  revert a. induction n as [|n IH]; intros a; cbn; constructor.
  - apply IH.
  - apply Forall_fmap, Forall_forall. intros x Hx.
    apply elem_of_seq in Hx. cbn. lia.
Qed.

Lemma seq_distinct (a n : nat) : NoDup (Z.of_nat <$> seq a n).
Proof. apply NoDup_fmap_2; [intros x y; lia | apply NoDup_seq]. Qed.

(** C8: within one generator instance, whatever the calls made on it, the
    frames of the [generateBLEFrame] calls are numbered 1, 2, 3, ... in the
    order of the calls: the numbers start at 1, increase by exactly 1 per
    call, and are therefore strictly increasing and unique. *)
Theorem C8_frame_numbers_count_from_one (random : nat -> Q) (clock : nat -> Z)
    (cs : list Call) (w : World) :
  let frames := framesOf (fst (session random clock cs w)) in
  frameNumber <$> frames = Z.of_nat <$> seq 1 (length frames) /\
  StronglySorted Z.lt (frameNumber <$> frames) /\
  NoDup (frameNumber <$> frames).
Proof.
  cbn zeta. unfold session, bind.
  pose proof (constructor_counter random w) as H0.
  destruct (constructor random w) as [[] w0]. cbn [snd] in H0.
  destruct (performAll_frames random clock cs w0) as [H _].
  rewrite H0 in H. unfold consecutive_from in H. rewrite length_fmap in H.
  assert (frameNumber <$> framesOf (fst (performAll random clock cs w0))
          = Z.of_nat <$> seq 1 (length (framesOf (fst (performAll random clock cs w0)))))
    as E.
  { rewrite H at 1. apply list_fmap_ext. intros _ i _. lia. }
  split; [exact E|]. rewrite E.
  split; [apply seq_strictly_increasing | apply seq_distinct].
Qed.

(** ** Sessions: battery level *)

Lemma batteryOf_floor (c : Z) : 10 <= batteryOf c.
Proof. apply max_lower. Qed.

Lemma batteryOf_antitone (c1 c2 : Z) :
  (c1 <= c2)%Z -> batteryOf c2 <= batteryOf c1.
Proof.
  intros H. apply inject_Z_le in H. unfold batteryOf.
  apply max_upper; [apply max_lower|].
  eapply Qle_trans; [|apply max_arg]. lra.
Qed.

Lemma drained_nil (c c' : Z) : drained c c' [].
Proof. split; constructor. Qed.

Lemma drained_one (lo c hi : Z) :
  (lo <= c <= hi)%Z -> drained lo hi [batteryOf c].
Proof.
  intros [H1 H2]. split.
  - repeat constructor.
  - repeat constructor; now apply batteryOf_antitone.
Qed.

Lemma drained_app (a b c : Z) (l1 l2 : list Q) :
  (a <= b)%Z -> (b <= c)%Z ->
  drained a b l1 -> drained b c l2 -> drained a c (l1 ++ l2).
Proof.
  intros Hab Hbc [S1 B1] [S2 B2].
  pose proof (batteryOf_antitone a b Hab) as Mab.
  pose proof (batteryOf_antitone b c Hbc) as Mbc.
  rewrite Forall_forall in B1, B2. split.
  - apply StronglySorted_app_2; [|exact S1 | exact S2].
    intros x1 x2 H1 H2. destruct (B1 x1 H1), (B2 x2 H2). lra.
  - apply Forall_app. split; apply Forall_forall; intros x Hx.
    + destruct (B1 x Hx). split; lra.
    + destruct (B2 x Hx). split; lra.
Qed.

Section Battery.

Variable random : nat -> Q.
Variable clock : nat -> Z.

Lemma extractVitalSigns_battery f w :
  batteryLevel (fst (extractVitalSigns random f w)) = batteryOf (frameCounter (this w)).
Proof. now rewrite extractVitalSigns_reading. Qed.

Lemma readingsOf_app evs evs' :
  readingsOf (evs ++ evs') = readingsOf evs ++ readingsOf evs'.
Proof. apply flat_map_app. Qed.

Lemma readingsOf_collected (collected : list (BLEWBANFrame * VitalSignsReading)) :
  readingsOf (flat_map (fun fr => [FrameGenerated (fst fr); VitalsExtracted (snd fr)])
                collected)
  = map snd collected.
Proof.
  induction collected as [|fr l IH]; [reflexivity|].
  cbn. f_equal. exact IH.
Qed.

Lemma readSensor_battery patientId sensor w :
  batteryLevel (snd (fst (readSensor random clock patientId sensor w)))
    = batteryOf (frameCounter (this w) + 1).
Proof.
  rewrite readSensor_unfold. cbn [fst snd].
  rewrite extractVitalSigns_battery.
  destruct (generateBLEFrame_spec random clock
              (patientId +:+ "_" +:+ id sensor) (sensor_position sensor) w)
    as (Hw & _).
  now rewrite Hw.
Qed.

Lemma sensor_loop_battery patientId (sensors : list SensorPosition) w :
  let collected := fst (forEach sensors (readSensor random clock patientId) w) in
  let w' := snd (forEach sensors (readSensor random clock patientId) w) in
  (frameCounter (this w) <= frameCounter (this w'))%Z /\
  drained (frameCounter (this w)) (frameCounter (this w'))
    (batteryLevel <$> map snd collected).
Proof.
  revert w. induction sensors as [|s l IH]; intros w.
  - cbn. split; [lia | apply drained_nil].
  - cbn [forEach]. unfold bind.
    destruct (readSensor_frame random clock patientId s w) as [_ Hc].
    pose proof (readSensor_battery patientId s w) as Hb.
    destruct (readSensor random clock patientId s w) as [fr w1].
    cbn [fst snd] in Hb, Hc.
    specialize (IH w1). cbn zeta in IH.
    destruct (forEach l (readSensor random clock patientId) w1) as [frs w2].
    cbn [fst snd ret map] in *. destruct IH as [IH1 IH2].
    split; [lia|].
    change (batteryLevel <$> snd fr :: map snd frs)
      with ([batteryLevel (snd fr)] ++ (batteryLevel <$> map snd frs)).
    apply (drained_app _ (frameCounter (this w1))); [lia | lia | | exact IH2].
    rewrite Hb. apply drained_one. lia.
Qed.

Lemma perform_battery (c : Call) w :
  let evs := fst (perform random clock c w) in
  let w' := snd (perform random clock c w) in
  (frameCounter (this w) <= frameCounter (this w'))%Z /\
  drained (frameCounter (this w)) (frameCounter (this w'))
    (batteryLevel <$> readingsOf evs).
Proof.
  destruct c as [d p | f | patientId]; cbn [perform]; unfold bind, ret.
  - destruct (generateBLEFrame_spec random clock d p w) as (Hw & _).
    destruct (generateBLEFrame random clock d p w) as [f w1].
    cbn [fst snd] in *. rewrite Hw. cbn. split; [lia | apply drained_nil].
  - pose proof (extractVitalSigns_this random f w) as Hw.
    pose proof (extractVitalSigns_battery f w) as Hb.
    destruct (extractVitalSigns random f w) as [r w1].
    cbn [fst snd] in *. rewrite Hw. cbn [frameCounter]. split; [lia|].
    unfold readingsOf. cbn. rewrite Hb. apply drained_one. lia.
  - pose proof (sensor_loop_battery patientId WBAN_POSITIONS w) as H.
    unfold sensorReadings.
    destruct (forEach WBAN_POSITIONS (readSensor random clock patientId) w)
      as [collected w1].
    cbn [fst snd] in *. now rewrite readingsOf_collected.
Qed.

Lemma performAll_battery (cs : list Call) w :
  let evs := fst (performAll random clock cs w) in
  let w' := snd (performAll random clock cs w) in
  (frameCounter (this w) <= frameCounter (this w'))%Z /\
  drained (frameCounter (this w)) (frameCounter (this w'))
    (batteryLevel <$> readingsOf evs).
Proof.
  revert w. induction cs as [|c cs IH]; intros w.
  - cbn. split; [lia | apply drained_nil].
  - cbn [performAll]. unfold bind, ret.
    destruct (perform_battery c w) as [H1 H2].
    destruct (perform random clock c w) as [evs w1]. cbn [fst snd] in H1, H2.
    destruct (IH w1) as [H3 H4].
    destruct (performAll random clock cs w1) as [evs' w2]. cbn [fst snd] in *.
    rewrite readingsOf_app, fmap_app. split; [lia|].
    now apply (drained_app _ (frameCounter (this w1))).
Qed.

End Battery.

(** C9: the battery level of every derived reading is
    max(10, 100 - frameCounter * 0.01) for the generator's frame counter at
    that call and is at least 10; across any sequence of calls on one
    generator instance the battery levels of the successive readings never
    increase. *)
Theorem C9_battery_drain (random : nat -> Q) (clock : nat -> Z) :
  (forall f w,
     let r := fst (extractVitalSigns random f w) in
     batteryLevel r = Math.max 10 (100 - inject_Z (frameCounter (this w)) * 0.01) /\
     10 <= batteryLevel r) /\
  (forall cs w,
     let readings := readingsOf (fst (performAll random clock cs w)) in
     StronglySorted (fun a b => b <= a) (batteryLevel <$> readings) /\
     Forall (fun r => 10 <= batteryLevel r) readings).
Proof.
  split.
  - intros f w. cbn zeta. rewrite extractVitalSigns_battery.
    split; [reflexivity | apply batteryOf_floor].
  - intros cs w. cbn zeta.
    destruct (performAll_battery random clock cs w) as [_ [Hs Hb]].
    split; [exact Hs|].
    apply Forall_fmap in Hb. eapply Forall_impl; [exact Hb|].
    intros r [Hr _]. cbn in Hr |- *.
    eapply Qle_trans; [apply batteryOf_floor | exact Hr].
Qed.

(** ** Sessions: the noise-factor map and the composite device ids *)

Section Noise.

Variable random : nat -> Q.
Variable clock : nat -> Z.

Lemma constructor_noise_keys w : noise_keys (this (snd (constructor random w))).
Proof.
  intros k. cbn.
  rewrite !lookup_insert_is_Some, lookup_empty.
  intros H. unfold WBAN_POSITIONS. cbn.
  repeat (destruct H as [<- | [_ H]]; [set_solver|]).
  now destruct H.
Qed.

Lemma readSensor_noise patientId sensor w :
  signalNoiseFactors (this (snd (readSensor random clock patientId sensor w)))
  = signalNoiseFactors (this w).
Proof.
  rewrite readSensor_unfold. cbn [fst snd].
  rewrite extractVitalSigns_this. cbn [signalNoiseFactors].
  destruct (generateBLEFrame_spec random clock
              (patientId +:+ "_" +:+ id sensor) (sensor_position sensor) w)
    as (Hw & _).
  now rewrite Hw.
Qed.

Lemma sensorReadings_noise patientId w :
  signalNoiseFactors (this (snd (sensorReadings random clock patientId w)))
  = signalNoiseFactors (this w).
Proof.
  unfold sensorReadings.
  apply (forEach_invariant
           (fun w' => signalNoiseFactors (this w') = signalNoiseFactors (this w))
           (fun _ => True)); [|reflexivity].
  intros s w' _ Hw'. split; [exact I|]. now rewrite readSensor_noise.
Qed.

Lemma perform_noise (c : Call) w :
  signalNoiseFactors (this (snd (perform random clock c w)))
  = signalNoiseFactors (this w).
Proof.
  destruct c as [d p | f | patientId]; cbn [perform]; unfold bind, ret.
  - destruct (generateBLEFrame_spec random clock d p w) as (Hw & _).
    destruct (generateBLEFrame random clock d p w) as [f w1].
    cbn [fst snd] in *. now rewrite Hw.
  - pose proof (extractVitalSigns_this random f w) as Hw.
    destruct (extractVitalSigns random f w) as [r w1].
    cbn [fst snd] in *. now rewrite Hw.
  - pose proof (sensorReadings_noise patientId w) as Hw.
    destruct (sensorReadings random clock patientId w) as [collected w1].
    exact Hw.
Qed.

Lemma performAll_noise (cs : list Call) w :
  signalNoiseFactors (this (snd (performAll random clock cs w)))
  = signalNoiseFactors (this w).
Proof.
  revert w. induction cs as [|c cs IH]; intros w; [reflexivity|].
  cbn [performAll]. unfold bind, ret.
  pose proof (perform_noise c w) as H1.
  destruct (perform random clock c w) as [evs w1]. cbn [snd] in H1.
  specialize (IH w1).
  destruct (performAll random clock cs w1) as [evs' w2]. cbn [snd] in *.
  congruence.
Qed.

(** The keys of the noise-factor map of an instance never change. *)
Lemma session_noise_keys (cs : list Call) w :
  noise_keys (this (snd (session random clock cs w))).
Proof.
  unfold session, bind.
  pose proof (constructor_noise_keys w) as H.
  destruct (constructor random w) as [[] w0]. cbn [snd] in H.
  unfold noise_keys in *. now rewrite performAll_noise.
Qed.

Hypothesis random_range : unit_interval random.

(** One sensor of the loop, on a generator whose noise-factor map is keyed
    by bare sensor ids. *)
Lemma readSensor_unscaled patientId sensor w :
  sensor ∈ WBAN_POSITIONS ->
  noise_keys (this w) ->
  unscaled_noise (signalNoiseFactors (this w))
    (fst (readSensor random clock patientId sensor w)).
Proof.
  intros Hs Hkeys.
  rewrite readSensor_unfold. cbn [fst snd]. unfold unscaled_noise. cbn [fst snd].
  rewrite extractVitalSigns_reading. cbn [signalQuality connectionStatus].
  destruct (generateBLEFrame_spec random clock
              (patientId +:+ "_" +:+ id sensor) (sensor_position sensor) w)
    as (_ & _ & Hd & _ & _ & _ & [k Hr] & Hss & _).
  set (f := fst (generateBLEFrame random clock
                   (patientId +:+ "_" +:+ id sensor) (sensor_position sensor) w))
    in *.
  assert (signalNoiseFactors (this w) !! deviceId f = None) as Hmiss.
  { rewrite Hd. apply eq_None_not_Some. intros Hsome.
    apply Hkeys in Hsome. now apply (composite_id_fresh patientId sensor Hs). }
  rewrite <- Hd, Hmiss in Hr. cbn [or_default] in Hr.
  change (1 / 1) with 1 in Hr.
  destruct (random_range k) as [Hk0 Hk1].
  assert (-50 <= rssi f < -30) as Hrssi by (rewrite Hr; lra).
  assert (62.5 <= signalStrength f) as Hstrength.
  { rewrite Hss. eapply Qle_trans; [|apply max_arg]. apply min_lower; lra. }
  assert (classify f = if frameDecoded f then excellent else poor) as Hq.
  { unfold classify.
    replace (rssi f <? -70) with false by (symmetry; apply Qltb_ge; lra).
    replace (rssi f <? -60) with false by (symmetry; apply Qltb_ge; lra).
    replace (rssi f <? -50) with false by (symmetry; apply Qltb_ge; lra).
    now destruct (frameDecoded f). }
  assert ((signalStrength f >? 40) = true) as H40 by (apply Qgtb_gt; lra).
  rewrite Hq, H40, Hmiss.
  repeat split; try tauto;
    try (destruct (frameDecoded f); discriminate);
    destruct (signalStrength f >? 70); auto; discriminate.
Qed.

Lemma sensorReadings_unscaled patientId w :
  noise_keys (this w) ->
  Forall (unscaled_noise (signalNoiseFactors (this w)))
    (fst (sensorReadings random clock patientId w)).
Proof.
  intros Hkeys. unfold sensorReadings.
  apply (forEach_invariant
           (fun w' => signalNoiseFactors (this w') = signalNoiseFactors (this w))
           (unscaled_noise (signalNoiseFactors (this w)))); [|reflexivity].
  intros s w' Hs Hw'. split; [|now rewrite readSensor_noise].
  rewrite <- Hw'. apply readSensor_unscaled; [exact Hs|].
  unfold noise_keys in *. now rewrite Hw'.
Qed.

End Noise.

(** The frames of a network reading are those of its sensor loop; the
    aggregation of six readings does not fail. *)
Lemma generateWBANReading_frames (random : nat -> Q) (clock : nat -> Z)
    (patientId : string) (w : World) :
  exists reading,
    fst (generateWBANReading random clock patientId w) = Some reading /\
    bleFrames reading = map fst (fst (sensorReadings random clock patientId w)) /\
    length (bleFrames reading) = 6%nat.
Proof.
  unfold generateWBANReading, bind.
  pose proof (forEach_length (readSensor random clock patientId) WBAN_POSITIONS w) as Hl.
  fold (sensorReadings random clock patientId) in Hl.
  destruct (sensorReadings random clock patientId w) as [collected w1].
  cbn [fst snd] in *.
  destruct (aggregateVitalSigns_fields (map snd collected)) as (_ & agg & -> & _).
  { destruct collected; [discriminate Hl | discriminate]. }
  eexists. split; [reflexivity|]. cbn [bleFrames].
  split; [reflexivity|]. now rewrite length_map, Hl.
Qed.

(** C10: on a generator instance, after any calls, [generateWBANReading]
    for any patient looks up each frame's noise factor under the composite
    device id, which is not a key of the noise-factor map: the lookup misses
    and the factor is 1.  So each frame has RSSI in [-50, -30), each sensor's
    reading is excellent when the frame decoded and poor when it did not
    (never fair or good), and its connection status is connected or weak
    (never disconnected). *)
Theorem C10_composite_id_never_scaled (random : nat -> Q) (clock : nat -> Z)
    (cs : list Call) (boot_world : World) (patientId : string) :
  unit_interval random ->
  let w := snd (session random clock cs boot_world) in
  let collected := fst (sensorReadings random clock patientId w) in
  Forall (unscaled_noise (signalNoiseFactors (this w))) collected /\
  exists reading,
    fst (generateWBANReading random clock patientId w) = Some reading /\
    bleFrames reading = map fst collected /\
    length (bleFrames reading) = 6%nat.
Proof.
  intros Hr w collected. split.
  - apply sensorReadings_unscaled; [exact Hr|]. apply session_noise_keys.
  - apply generateWBANReading_frames.
Qed.

Lemma C10_composite_id_never_scaled_witness :
  let w := snd (session (fun _ => 0.5) (fun _ => 0%Z) [] boot) in
  let collected := fst (sensorReadings (fun _ => 0.5) (fun _ => 0%Z) "P001" w) in
  Forall (unscaled_noise (signalNoiseFactors (this w))) collected /\
  exists reading,
    fst (generateWBANReading (fun _ => 0.5) (fun _ => 0%Z) "P001" w) = Some reading /\
    bleFrames reading = map fst collected /\
    length (bleFrames reading) = 6%nat.
Proof.
  apply (C10_composite_id_never_scaled (fun _ => 0.5) (fun _ => 0%Z) [] boot "P001").
  intros k. split; [discriminate | reflexivity].
Defined.

(** ** The readings and frames a generator produces *)

(** Every derived reading has a whole-number heart rate, so the aggregation
    of any single derived reading keeps its heart rate. *)
Lemma extractVitalSigns_heartRate_whole (random : nat -> Q) (f : BLEWBANFrame) (w : World) :
  whole (heartRate (fst (extractVitalSigns random f w))).
Proof.
  rewrite extractVitalSigns_reading. cbn [heartRate]. unfold whole.
  now rewrite Qfloor_Z.
Qed.

(** A fresh generator's first network reading has one frame per catalog
    entry, numbered 1 to 6 in catalog order. *)
Example fresh_network_reading_frames :
  frameNumber <$> framesOf steady_session = [1; 2; 3; 4; 5; 6]%Z /\
  deviceId <$> framesOf steady_session
  = ["P001_chest"; "P001_wrist_l"; "P001_wrist_r"; "P001_head"; "P001_arm_l";
     "P001_torso_back"].
Proof. split; vm_compute; reflexivity. Qed.

(** ** The frame synthesizer: the remaining fields *)

Section FrameFields.

Variable random : nat -> Q.
Variable clock : nat -> Z.

(** The fields of a frame that [generateBLEFrame_spec] leaves out, and the
    inputs the call consumes. *)
Lemma generateBLEFrame_shape d p w :
  let f := fst (generateBLEFrame random clock d p w) in
  let w' := snd (generateBLEFrame random clock d p w) in
  let r1 := random (random_calls w) in
  random_calls w' = (random_calls w + (if r1 >? 0.7 then 32 else 33))%nat /\
  clock_calls w' = S (clock_calls w) /\
  frame_timestamp f = clock (clock_calls w) /\
  txPower f = (if r1 >? 0.7 then dbm9
               else if random (S (random_calls w)) >? 0.5 then dbm6 else dbm3) /\
  (exists k, antenna f = (Math.floor (random k * 4) + 1)%Z) /\
  (exists k, bitLength f = (Math.floor (random k * 100) + 150)%Z) /\
  (length (iComponent f) = 10%nat /\
   Forall (fun x => exists k, x = (random k - 0.5) * 0.02) (iComponent f)) /\
  (length (qComponent f) = 10%nat /\
   Forall (fun x => exists k, x = (random k - 0.5) * 0.02) (qComponent f)) /\
  (length (maxGradientUnwrappedPhase f) = 5%nat /\
   Forall (fun x => exists k, x = random k * 0.03 - 0.015)
     (maxGradientUnwrappedPhase f)).
Proof.
  unfold generateBLEFrame, bind, get_this, set_this, ret, Math_random, Date_now.
  cbn -[Math.max Math.min channel_at Math.floor or_default Qgtb
        Qmult Qplus Qminus Qdiv Qopp Z.mul Z.add Nat.add].
  destruct (random (random_calls w) >? 0.7);
    cbn -[Math.max Math.min channel_at Math.floor or_default Qgtb
          Qmult Qplus Qminus Qdiv Qopp Z.mul Z.add Nat.add];
    repeat split; eauto; try lia;
    repeat (constructor; eauto).
Qed.

End FrameFields.

Lemma floor_scaled_range (u : Q) (n : Z) :
  (0 < n)%Z -> 0 <= u < 1 -> (0 <= Math.floor (u * inject_Z n) < n)%Z.
Proof.
  intros Hn [H0 H1]. unfold Math.floor.
  assert (0 < inject_Z n) as Hq by (change 0 with (inject_Z 0); now rewrite <- Zlt_Qlt).
  split.
  - change 0%Z with (Qfloor 0). apply Qfloor_resp_le. nra.
  - rewrite Zlt_Qlt. eapply Qle_lt_trans; [apply Qfloor_le|]. nra.
Qed.

(** X1: whatever the generator state, the device id and the random draws,
    the signal-strength field of a generated frame is a percentage in
    [0, 100]: it is (rssi + 100) * 1.25 for RSSI between -100 and -20, and
    saturates at 0 below and at 100 above. *)
Theorem X1_signalStrength_is_a_percentage (random : nat -> Q) (clock : nat -> Z)
    (d : string) (p : Position) (w : World) :
  let f := fst (generateBLEFrame random clock d p w) in
  0 <= signalStrength f <= 100 /\
  (rssi f <= -100 -> signalStrength f == 0) /\
  (-100 <= rssi f <= -20 -> signalStrength f == (rssi f + 100) * 1.25) /\
  (-20 <= rssi f -> signalStrength f == 100).
Proof.
  intros f.
  destruct (generateBLEFrame_spec random clock d p w)
    as (_ & _ & _ & _ & _ & _ & _ & Hs & _).
  fold f in Hs. rewrite Hs. clear Hs.
  split; [apply clamp_band; lra|].
  unfold Math.max, Math.min.
  destruct (Qle_bool 100 ((rssi f + 100) * 1.25)) eqn:E1;
    [apply Qle_bool_iff in E1 | apply not_true_iff_false in E1;
                                 rewrite Qle_bool_iff in E1; apply Qnot_le_lt in E1];
    [ change (Qle_bool 0 100) with true; cbn iota
    | destruct (Qle_bool 0 ((rssi f + 100) * 1.25)) eqn:E2;
      [apply Qle_bool_iff in E2 | apply not_true_iff_false in E2;
                                   rewrite Qle_bool_iff in E2; apply Qnot_le_lt in E2] ];
    repeat split; intros; lra.
Qed.

(** X2: with [Math.random()] in [0, 1), a generated frame has an antenna
    index from 1 to 4, a bit length from 150 to 249, a carrier frequency in
    the 2.402-2.480 GHz band that is never that of channel 11, and a
    transmit power that is never the declared class 0dbm. *)
Theorem X2_frame_field_ranges (random : nat -> Q) (clock : nat -> Z)
    (d : string) (p : Position) (w : World) :
  unit_interval random ->
  let f := fst (generateBLEFrame random clock d p w) in
  (1 <= antenna f <= 4)%Z /\
  (150 <= bitLength f <= 249)%Z /\
  (2402000000 <= frequency f <= 2480000000)%Z /\
  frequency f <> 2424000000%Z /\
  txPower f <> dbm0.
Proof.
  intros Hr f.
  destruct (generateBLEFrame_shape random clock d p w)
    as (_ & _ & _ & Htx & [ka Ha] & [kb Hb] & _).
  destruct (generateBLEFrame_spec random clock d p w)
    as (_ & _ & _ & _ & [kc Hc] & Hf & _).
  fold f in Htx, Ha, Hb, Hc, Hf.
  pose proof (floor_scaled_range (random ka) 4 eq_refl (Hr ka)) as Ra.
  pose proof (floor_scaled_range (random kb) 100 eq_refl (Hr kb)) as Rb.
  change (inject_Z 4) with 4 in Ra. change (inject_Z 100) with 100 in Rb.
  assert ((0 <= channelNumber f <= 39)%Z /\ channelNumber f <> 11%Z) as [Rc Nc].
  { pose proof BLE_CHANNELS_members as Hall.
    rewrite List.Forall_forall in Hall. apply Hall.
    rewrite Hc. apply channel_at_member, channel_index_in_bounds, Hr. }
  repeat split; try lia.
  rewrite Htx.
  destruct (_ >? 0.7); [discriminate | destruct (_ >? 0.5); discriminate].
Qed.

Lemma X2_frame_field_ranges_witness :
  let f := fst (generateBLEFrame (fun _ => 0.5) (fun _ => 0%Z) "chest" chest boot) in
  (1 <= antenna f <= 4)%Z /\
  (150 <= bitLength f <= 249)%Z /\
  (2402000000 <= frequency f <= 2480000000)%Z /\
  frequency f <> 2424000000%Z /\
  txPower f <> dbm0.
Proof.
  apply (X2_frame_field_ranges (fun _ => 0.5) (fun _ => 0%Z) "chest" chest boot).
  intros k. split; [discriminate | reflexivity].
Defined.

(** X3: the placeholder arrays of a generated frame have fixed lengths
    (10 in-phase samples, 10 quadrature samples, 5 phase gradients), and with
    [Math.random()] in [0, 1) every sample is in [-0.01, 0.01) and every
    phase gradient in [-0.015, 0.015). *)
Theorem X3_placeholder_arrays (random : nat -> Q) (clock : nat -> Z)
    (d : string) (p : Position) (w : World) :
  unit_interval random ->
  let f := fst (generateBLEFrame random clock d p w) in
  length (iComponent f) = 10%nat /\
  length (qComponent f) = 10%nat /\
  length (maxGradientUnwrappedPhase f) = 5%nat /\
  Forall (fun x => -0.01 <= x < 0.01) (iComponent f) /\
  Forall (fun x => -0.01 <= x < 0.01) (qComponent f) /\
  Forall (fun x => -0.015 <= x < 0.015) (maxGradientUnwrappedPhase f).
Proof.
  intros Hr f.
  destruct (generateBLEFrame_shape random clock d p w)
    as (_ & _ & _ & _ & _ & _ & [Li Hi] & [Lq Hq] & [Lp Hp]).
  fold f in Li, Hi, Lq, Hq, Lp, Hp.
  repeat split; try assumption;
    (eapply Forall_impl; [eassumption|]);
    intros x [k ->]; destruct (Hr k); cbn beta; lra.
Qed.

Lemma X3_placeholder_arrays_witness :
  let f := fst (generateBLEFrame (fun _ => 0.5) (fun _ => 0%Z) "chest" chest boot) in
  length (iComponent f) = 10%nat /\
  length (qComponent f) = 10%nat /\
  length (maxGradientUnwrappedPhase f) = 5%nat /\
  Forall (fun x => -0.01 <= x < 0.01) (iComponent f) /\
  Forall (fun x => -0.01 <= x < 0.01) (qComponent f) /\
  Forall (fun x => -0.015 <= x < 0.015) (maxGradientUnwrappedPhase f).
Proof.
  apply (X3_placeholder_arrays (fun _ => 0.5) (fun _ => 0%Z) "chest" chest boot).
  intros k. split; [discriminate | reflexivity].
Defined.

(** X4: a call of [generateBLEFrame] reads the clock once, for the frame's
    timestamp, and calls [Math.random()] 32 times when the first draw is
    above 0.7 (power class 9dbm) and 33 times otherwise (the second draw then
    picks 6dbm above 0.5 and 3dbm else); it leaves the last readings and the
    noise factors alone. *)
Theorem X4_frame_consumes_inputs (random : nat -> Q) (clock : nat -> Z)
    (d : string) (p : Position) (w : World) :
  let f := fst (generateBLEFrame random clock d p w) in
  let w' := snd (generateBLEFrame random clock d p w) in
  let first := random (random_calls w) in
  let second := random (S (random_calls w)) in
  (first > 0.7 -> random_calls w' = (random_calls w + 32)%nat /\ txPower f = dbm9) /\
  (first <= 0.7 -> random_calls w' = (random_calls w + 33)%nat /\
                   (second > 0.5 -> txPower f = dbm6) /\
                   (second <= 0.5 -> txPower f = dbm3)) /\
  clock_calls w' = S (clock_calls w) /\
  frame_timestamp f = clock (clock_calls w) /\
  lastReadings (this w') = lastReadings (this w) /\
  signalNoiseFactors (this w') = signalNoiseFactors (this w).
Proof.
  intros f w' first second.
  destruct (generateBLEFrame_shape random clock d p w) as (Hn & Hc & Ht & Htx & _).
  destruct (generateBLEFrame_spec random clock d p w) as (Hw & _).
  fold f in Ht, Htx. fold w' in Hn, Hc, Hw. fold first in Hn, Htx. fold second in Htx.
  rewrite Hw. cbn [lastReadings signalNoiseFactors].
  repeat split; try assumption.
  - apply Qgtb_gt in H. now rewrite H in Hn.
  - apply Qgtb_gt in H. now rewrite H in Htx.
  - apply Qgtb_le in H. now rewrite H in Hn.
  - intros H2. apply Qgtb_le in H. apply Qgtb_gt in H2. now rewrite H, H2 in Htx.
  - intros H2. apply Qgtb_le in H. apply Qgtb_le in H2. now rewrite H, H2 in Htx.
Qed.

(** ** The noise factors of an instance *)

Lemma or_default_nonzero (v d : Q) : ~ v == 0 -> or_default (Some v) d = v.
Proof.
  intros H. cbn. destruct (Qeq_bool v 0) eqn:E; [|reflexivity].
  now apply Qeq_bool_iff in E.
Qed.

(** The RSSI of a frame, for a factor between 0.9 and 1. *)
Lemma rssi_range (u n : Q) :
  0 <= u < 1 -> 0.9 <= n <= 1 ->
  -40 - 100 / 9 <= -40 + (u * 20 - 10) * (1 / n) <= -40 + 100 / 9.
Proof.
  intros [Hu0 Hu1] [Hn0 Hn1].
  set (y := (u * 20 - 10) * (1 / n)).
  assert (y * n == u * 20 - 10) as E by (unfold y; field; lra).
  assert (100 / 9 == 100 # 9) as -> by reflexivity.
  destruct (Qlt_le_dec y 0) as [Hy | Hy]; split; nra.
Qed.

Section NoiseValues.

Variable random : nat -> Q.
Variable clock : nat -> Z.
Hypothesis random_range : unit_interval random.

(** The constructor gives each of the six sensors a factor in [0.9, 1]. *)
Lemma constructor_noise_values w :
  noise_values (this (snd (constructor random w))) /\
  forall sensor, sensor ∈ WBAN_POSITIONS ->
    is_Some (signalNoiseFactors (this (snd (constructor random w))) !! id sensor).
Proof.
  split.
  - intros k v. cbn -[Qmult Qplus].
    rewrite !lookup_insert_Some, lookup_empty.
    intros H.
    repeat (destruct H as [[_ <-] | [_ H]];
            [match goal with
             | |- _ <= random ?i * _ + _ <= _ => destruct (random_range i); lra
             end|]).
    discriminate H.
  - intros sensor Hs. unfold WBAN_POSITIONS in Hs.
    repeat (apply elem_of_cons in Hs as [-> | Hs]); try (now apply elem_of_nil in Hs);
      cbn -[Qmult Qplus]; eauto.
Qed.

Lemma session_noise_values (cs : list Call) w :
  noise_values (this (snd (session random clock cs w))) /\
  forall sensor, sensor ∈ WBAN_POSITIONS ->
    is_Some (signalNoiseFactors (this (snd (session random clock cs w))) !! id sensor).
Proof.
  unfold session, bind.
  pose proof (constructor_noise_values w) as H.
  destruct (constructor random w) as [[] w0]. cbn [snd] in H.
  unfold noise_values in *. now rewrite performAll_noise.
Qed.

(** The factor a frame is generated with lies in [0.9, 1], whatever the
    device id. *)
Lemma applied_factor_range (g : BLEWBANDataGenerator) (d : string) :
  noise_values g -> 0.9 <= or_default (signalNoiseFactors g !! d) 1 <= 1.
Proof.
  intros Hv. destruct (signalNoiseFactors g !! d) as [v|] eqn:E.
  - destruct (Hv d v E). rewrite or_default_nonzero; lra.
  - cbn. lra.
Qed.

End NoiseValues.

(** X5: on any generator instance, a frame generated for a device id that
    is a bare sensor id (chest, wrist_l, ...) is scaled by the factor the
    constructor stored for that sensor: the factor is in [0.9, 1] and the
    RSSI is -40 + (random * 20 - 10) * (1 / factor), within 100/9 dBm of
    -40. *)
Theorem X5_bare_sensor_id_uses_stored_factor (random : nat -> Q) (clock : nat -> Z)
    (cs : list Call) (boot_world : World) (sensor : SensorPosition) (p : Position) :
  unit_interval random ->
  sensor ∈ WBAN_POSITIONS ->
  let w := snd (session random clock cs boot_world) in
  let f := fst (generateBLEFrame random clock (id sensor) p w) in
  exists factor k,
    signalNoiseFactors (this w) !! id sensor = Some factor /\
    0.9 <= factor <= 1 /\
    rssi f = -40 + (random k * 20 - 10) * (1 / factor) /\
    -40 - 100 / 9 <= rssi f <= -40 + 100 / 9.
Proof.
  intros Hr Hs w f.
  destruct (session_noise_values random clock Hr cs boot_world) as [Hv Hk].
  fold w in Hv, Hk.
  destruct (Hk sensor Hs) as [factor Hf].
  destruct (generateBLEFrame_spec random clock (id sensor) p w)
    as (_ & _ & _ & _ & _ & _ & [k Hrssi] & _).
  fold f in Hrssi.
  destruct (Hv _ _ Hf) as [F0 F1].
  rewrite Hf, or_default_nonzero in Hrssi by lra.
  exists factor, k. split; [exact Hf|]. split; [split; assumption|].
  split; [exact Hrssi|].
  rewrite Hrssi. apply rssi_range; [apply Hr | lra].
Qed.

Lemma X5_bare_sensor_id_uses_stored_factor_witness :
  let sensor := {| id := "chest"; name := "Chest ECG"; sensor_position := chest;
                   priority := 1 |} in
  let w := snd (session (fun _ => 0.5) (fun _ => 0%Z) [] boot) in
  let f := fst (generateBLEFrame (fun _ => 0.5) (fun _ => 0%Z) (id sensor) chest w) in
  exists factor k,
    signalNoiseFactors (this w) !! id sensor = Some factor /\
    0.9 <= factor <= 1 /\
    rssi f = -40 + ((fun _ : nat => 0.5) k * 20 - 10) * (1 / factor) /\
    -40 - 100 / 9 <= rssi f <= -40 + 100 / 9.
Proof.
  apply (X5_bare_sensor_id_uses_stored_factor (fun _ => 0.5) (fun _ => 0%Z) [] boot).
  - intros k. split; [discriminate | reflexivity].
  - apply elem_of_cons. left. reflexivity.
Defined.

(** X6: on any generator instance and for any device id, a generated frame
    has RSSI within 100/9 dBm of -40 (the applied factor is in [0.9, 1]), so
    the reading derived from it is never classified fair, is poor exactly
    when the frame was not decoded, and never has connection status
    disconnected. *)
Theorem X6_fair_and_disconnected_unreachable (random : nat -> Q) (clock : nat -> Z)
    (cs : list Call) (boot_world : World) (d : string) (p : Position) :
  unit_interval random ->
  let w := snd (session random clock cs boot_world) in
  let f := fst (generateBLEFrame random clock d p w) in
  let w1 := snd (generateBLEFrame random clock d p w) in
  let r := fst (extractVitalSigns random f w1) in
  -40 - 100 / 9 <= rssi f <= -40 + 100 / 9 /\
  signalQuality r <> fair /\
  (signalQuality r = poor <-> frameDecoded f = false) /\
  connectionStatus r <> disconnected.
Proof.
  intros Hr w f w1 r.
  destruct (session_noise_values random clock Hr cs boot_world) as [Hv _].
  fold w in Hv.
  destruct (generateBLEFrame_spec random clock d p w)
    as (_ & _ & _ & _ & _ & _ & [k Hrssi] & Hss & _).
  fold f in Hrssi, Hss.
  pose proof (rssi_range (random k) _ (Hr k) (applied_factor_range (this w) d Hv)) as R.
  rewrite <- Hrssi in R.
  assert (-52 <= rssi f) as Hlow.
  { destruct R as [R _]. eapply Qle_trans; [|exact R]. discriminate. }
  assert (48 * 1.25 <= signalStrength f) as Hstrength.
  { rewrite Hss. eapply Qle_trans; [|apply max_arg]. apply min_lower; lra. }
  split; [exact R|].
  subst r. rewrite extractVitalSigns_reading. cbn [signalQuality connectionStatus].
  unfold classify.
  replace (rssi f <? -70) with false by (symmetry; apply Qltb_ge; lra).
  replace (rssi f <? -60) with false by (symmetry; apply Qltb_ge; lra).
  replace (signalStrength f >? 40) with true by (symmetry; apply Qgtb_gt; lra).
  destruct (frameDecoded f); cbn [negb orb];
    destruct (rssi f <? -50), (signalStrength f >? 70);
    repeat split; congruence.
Qed.

Lemma X6_fair_and_disconnected_unreachable_witness :
  let w := snd (session (fun _ => 0.5) (fun _ => 0%Z) [] boot) in
  let f := fst (generateBLEFrame (fun _ => 0.5) (fun _ => 0%Z) "wrist_l" wrist w) in
  let w1 := snd (generateBLEFrame (fun _ => 0.5) (fun _ => 0%Z) "wrist_l" wrist w) in
  let r := fst (extractVitalSigns (fun _ => 0.5) f w1) in
  -40 - 100 / 9 <= rssi f <= -40 + 100 / 9 /\
  signalQuality r <> fair /\
  (signalQuality r = poor <-> frameDecoded f = false) /\
  connectionStatus r <> disconnected.
Proof.
  apply (X6_fair_and_disconnected_unreachable
           (fun _ => 0.5) (fun _ => 0%Z) [] boot "wrist_l" wrist).
  intros k. split; [discriminate | reflexivity].
Defined.

(** ** The derivation: its effect on the world *)

Lemma positionVitals_world (random : nat -> Q) pos last w :
  snd (positionVitals random pos last w)
  = {| this := this w;
       random_calls := (random_calls w + positionDraws pos)%nat;
       clock_calls := clock_calls w |}.
Proof.
  destruct w as [g rc cc].
  destruct pos; cbn -[Qmult Qplus Qminus Math.max Math.min or_default];
    f_equal; lia.
Qed.

Lemma extractVitalSigns_world (random : nat -> Q) f w :
  snd (extractVitalSigns random f w)
  = {| this :=
         {| frameCounter := frameCounter (this w);
            lastReadings :=
              <[ deviceId f := fst (extractVitalSigns random f w) ]>
                (lastReadings (this w));
            signalNoiseFactors := signalNoiseFactors (this w) |};
       random_calls := (random_calls w + positionDraws (position f))%nat;
       clock_calls := clock_calls w |}.
Proof.
  unfold extractVitalSigns, bind, get_this, set_this, ret.
  cbn -[Math.round Qmult Qdiv inject_Z batteryOf classify qualityFactor].
  pose proof (positionVitals_world random (position f)
                (lastReadings (this w) !! deviceId f) w) as Hw.
  destruct (positionVitals random (position f)
              (lastReadings (this w) !! deviceId f) w) as [b w'].
  cbn [snd] in Hw. subst w'. reflexivity.
Qed.

(** X7: [extractVitalSigns] stores the reading it returns as the last
    reading of the frame's device and touches no other device's entry, the
    frame counter, the noise factors or the clock; it calls [Math.random()]
    once for a chest or head frame, twice for a wrist, arm or torso_back
    frame and never for a torso_front frame. *)
Theorem X7_extract_stores_last_reading (random : nat -> Q) (f : BLEWBANFrame) (w : World) :
  let r := fst (extractVitalSigns random f w) in
  let w' := snd (extractVitalSigns random f w) in
  lastReadings (this w') !! deviceId f = Some r /\
  (forall d, d <> deviceId f ->
     lastReadings (this w') !! d = lastReadings (this w) !! d) /\
  frameCounter (this w') = frameCounter (this w) /\
  signalNoiseFactors (this w') = signalNoiseFactors (this w) /\
  clock_calls w' = clock_calls w /\
  random_calls w' = (random_calls w + positionDraws (position f))%nat.
Proof.
  cbn zeta. rewrite extractVitalSigns_world.
  cbn [this lastReadings frameCounter signalNoiseFactors clock_calls random_calls].
  split; [apply lookup_insert_eq|].
  split; [intros d Hd; now apply lookup_insert_ne|].
  auto.
Qed.

(** ** Induction over the calls of a session *)

(** A world invariant that frame generation keeps and derivation keeps
    holds after any calls, and every reading derived on the way has the
    property derivation gives on invariant worlds. *)
Lemma performAll_invariant (random : nat -> Q) (clock : nat -> Z)
    (I : World -> Prop) (P : VitalSignsReading -> Prop) :
  (forall d p w, I w -> I (snd (generateBLEFrame random clock d p w))) ->
  (forall f w, I w ->
     P (fst (extractVitalSigns random f w)) /\ I (snd (extractVitalSigns random f w))) ->
  forall cs w, I w ->
    Forall P (readingsOf (fst (performAll random clock cs w))) /\
    I (snd (performAll random clock cs w)).
Proof.
  intros Hgen Hext.
  assert (forall patientId w, I w ->
            Forall P (map snd (fst (sensorReadings random clock patientId w))) /\
            I (snd (sensorReadings random clock patientId w))) as Hloop.
  { intros patientId w Hw. unfold sensorReadings.
    destruct (forEach_invariant I (fun fr => P (snd fr))
                (readSensor random clock patientId) WBAN_POSITIONS) with (w := w)
      as [Hp Hi]; [|exact Hw|].
    - intros s w0 _ Hw0. rewrite readSensor_unfold. cbn [fst snd].
      apply Hext, Hgen, Hw0.
    - split; [|exact Hi]. now apply Forall_fmap. }
  induction cs as [|c cs IH]; intros w Hw.
  - split; [constructor | exact Hw].
  - cbn [performAll]. unfold bind, ret.
    assert (Forall P (readingsOf (fst (perform random clock c w))) /\
            I (snd (perform random clock c w))) as [Hp Hi].
    { destruct c as [d p | f | patientId]; cbn [perform]; unfold bind, ret.
      - specialize (Hgen d p w Hw).
        destruct (generateBLEFrame random clock d p w) as [f w1].
        split; [constructor | exact Hgen].
      - destruct (Hext f w Hw) as [Hp Hi].
        destruct (extractVitalSigns random f w) as [r w1].
        split; [repeat constructor; exact Hp | exact Hi].
      - destruct (Hloop patientId w Hw) as [Hp Hi].
        destruct (sensorReadings random clock patientId w) as [collected w1].
        cbn [fst snd] in *. now rewrite readingsOf_collected. }
    destruct (perform random clock c w) as [evs w1]. cbn [fst snd] in Hp, Hi.
    destruct (IH w1 Hi) as [Hp' Hi'].
    destruct (performAll random clock cs w1) as [evs' w2]. cbn [fst snd] in *.
    rewrite readingsOf_app. split; [now apply Forall_app | exact Hi'].
Qed.

(** ** The walks never rise above their defaults *)

Lemma min_arg (hi x : Q) : Math.min hi x <= x.
Proof.
  unfold Math.min. destruct (Qle_bool hi x) eqn:E.
  - now apply Qle_bool_iff.
  - apply Qle_refl.
Qed.

Lemma qualityFactor_range (s : SignalQuality) : 0.7 <= qualityFactor s <= 1.
Proof. destruct s; cbn; lra. Qed.

(** A stored value between 0 and its default, or none: the walk starts from
    a value that is positive and at most the default. *)
Lemma or_default_below (v : option Q) (d : Q) :
  0 < d -> (forall x, v = Some x -> 0 <= x <= d) ->
  0 < or_default v d <= d.
Proof.
  intros Hd Hv. destruct v as [x|]; cbn; [|lra].
  destruct (Qeq_bool x 0) eqn:E; [lra|].
  apply Qeq_bool_neq in E. destruct (Hv x eq_refl). lra.
Qed.

Section Ceilings.

Variable random : nat -> Q.
Variable clock : nat -> Z.
Hypothesis random_range : unit_interval random.

Lemma generateHeartRate_ceiling (last : option Q) (stability : Q) w :
  (forall x, last = Some x -> 0 <= x <= 72) ->
  0 <= stability <= 0.9 ->
  fst (generateHeartRate random last (Some stability) w) <= 72.
Proof.
  intros Hl Hs. cbn -[Math.max Math.min or_default Qmult Qplus Qminus].
  destruct (or_default_below last 72 eq_refl Hl) as [B0 B1].
  destruct (random_range (random_calls w)) as [U0 U1].
  apply max_upper; [lra|].
  eapply Qle_trans; [apply min_arg|]. nra.
Qed.

Lemma generateOxygenSat_ceiling (last : option Q) w :
  (forall x, last = Some x -> 0 <= x <= 98) ->
  fst (generateOxygenSat random last (Some 0.9) w) <= 89.2.
Proof.
  intros Hl. cbn -[Math.max Math.min or_default Qmult Qplus Qminus].
  destruct (or_default_below last 98 eq_refl Hl) as [B0 B1].
  destruct (random_range (random_calls w)) as [U0 U1].
  apply max_upper; [lra|].
  eapply Qle_trans; [apply min_arg|]. lra.
Qed.

(** The base heart rate and oxygen saturation, from a subdued last
    reading or none. *)
Lemma positionVitals_ceiling pos (last : option VitalSignsReading) w :
  (forall r, last = Some r -> subdued r) ->
  let b := fst (positionVitals random pos last w) in
  base_heartRate b <= 72 /\
  base_oxygenSat b <= 98 /\
  (pos = wrist -> base_oxygenSat b <= 89.2).
Proof.
  intros Hl.
  assert (forall x, heartRate <$> last = Some x -> 0 <= x <= 72) as Hh.
  { intros x Hx. destruct last as [r|]; [|discriminate].
    injection Hx as <-. destruct (Hl r eq_refl) as ([? ?] & _). lra. }
  assert (forall x, oxygenSaturation <$> last = Some x -> 0 <= x <= 98) as Ho.
  { intros x Hx. destruct last as [r|]; [|discriminate].
    injection Hx as <-. destruct (Hl r eq_refl) as (_ & _ & [? ?]). lra. }
  destruct pos; cbn [positionVitals]; unfold bind, ret.
  - cbn [fst base_heartRate base_oxygenSat]. repeat split; try lra; discriminate.
  - cbn [fst base_heartRate base_oxygenSat]. repeat split; try lra; discriminate.
  - pose proof (generateHeartRate_ceiling (heartRate <$> last) 0.9 w Hh) as H1.
    destruct (generateHeartRate random (heartRate <$> last) (Some 0.9) w) as [hr w1].
    pose proof (generateOxygenSat_ceiling (oxygenSaturation <$> last) w1 Ho) as H2.
    destruct (generateOxygenSat random (oxygenSaturation <$> last) (Some 0.9) w1)
      as [ox w2].
    cbn [fst base_heartRate base_oxygenSat] in *.
    repeat split; [apply H1; lra | lra | intros _; exact H2].
  - pose proof (generateHeartRate_ceiling (heartRate <$> last) 0.8 w Hh) as H1.
    destruct (generateHeartRate random (heartRate <$> last) (Some 0.8) w) as [hr w1].
    cbn [fst base_heartRate base_oxygenSat] in *.
    repeat split; [apply H1; lra | lra | discriminate].
  - cbn [fst base_heartRate base_oxygenSat]. repeat split; try lra; discriminate.
  - pose proof (generateHeartRate_ceiling (heartRate <$> last) 0.7 w Hh) as H1.
    destruct (generateHeartRate random (heartRate <$> last) (Some 0.7) w) as [hr w1].
    destruct (generateTemperature random (temperature <$> last) w1) as [t w2].
    cbn [fst base_heartRate base_oxygenSat] in *.
    repeat split; [apply H1; lra | lra | discriminate].
Qed.

Lemma round_between (lo hi : Z) (x : Q) :
  inject_Z lo <= x <= inject_Z hi ->
  inject_Z lo <= inject_Z (Math.round x) <= inject_Z hi.
Proof.
  intros [H1 H2]. apply round_mono in H1, H2. rewrite round_inject in H1, H2.
  split; now apply inject_Z_le.
Qed.

(** On a settled generator every derived reading is subdued, a wrist
    reading has oxygen saturation at most 89, and the generator stays
    settled. *)
Lemma extractVitalSigns_subdued f w :
  settled (this w) ->
  subdued (fst (extractVitalSigns random f w)) /\
  (position f = wrist -> oxygenSaturation (fst (extractVitalSigns random f w)) <= 89) /\
  settled (this (snd (extractVitalSigns random f w))).
Proof.
  intros Hs.
  assert (subdued (fst (extractVitalSigns random f w)) /\
          (position f = wrist ->
           oxygenSaturation (fst (extractVitalSigns random f w)) <= 89)) as [Hsub Hw].
  { rewrite extractVitalSigns_reading. unfold subdued.
    cbn [heartRate oxygenSaturation].
    destruct (positionVitals_ceiling (position f)
                (lastReadings (this w) !! deviceId f) w) as (Hh & Ho & Hwr).
    { intros r Hr. exact (Hs _ _ Hr). }
    destruct (positionVitals_bands random (position f)
                (lastReadings (this w) !! deviceId f) w) as ([Hh0 _] & _ & _ & [Ho0 _] & _).
    destruct (qualityFactor_range (classify f)) as [Q0 Q1].
    set (b := fst (positionVitals random (position f)
                     (lastReadings (this w) !! deviceId f) w)) in *.
    split; [split; [|split]|].
    - change 35 with (inject_Z 35). change 72 with (inject_Z 72).
      apply round_between. change (inject_Z 35) with 35. change (inject_Z 72) with 72.
      split; nra.
    - unfold whole. now rewrite Qfloor_Z.
    - split.
      + apply (Qle_trans _ (inject_Z (Math.round 59.5))); [discriminate|].
        apply inject_Z_le, round_mono. nra.
      + apply (Qle_trans _ (inject_Z (Math.round 98))); [|discriminate].
        apply inject_Z_le, round_mono. nra.
    - intros Hp. specialize (Hwr Hp).
      apply (Qle_trans _ (inject_Z (Math.round 89.2))); [|discriminate].
      apply inject_Z_le, round_mono. nra. }
  split; [exact Hsub|]. split; [exact Hw|].
  rewrite extractVitalSigns_this. intros d r. cbn [lastReadings].
  rewrite lookup_insert_Some. intros [[_ <-] | [_ Hr]]; [exact Hsub | exact (Hs _ _ Hr)].
Qed.

Lemma generateBLEFrame_settled d p w :
  settled (this w) -> settled (this (snd (generateBLEFrame random clock d p w))).
Proof.
  intros Hs. destruct (generateBLEFrame_spec random clock d p w) as (Hw & _).
  rewrite Hw. exact Hs.
Qed.

Lemma constructor_settled w : settled (this (snd (constructor random w))).
Proof. intros d r. cbn. now rewrite lookup_empty. Qed.

(** Any calls keep a generator instance settled. *)
Lemma session_settled (cs : list Call) w :
  Forall subdued (readingsOf (fst (session random clock cs w))) /\
  settled (this (snd (session random clock cs w))).
Proof.
  unfold session, bind.
  pose proof (constructor_settled w) as H0.
  destruct (constructor random w) as [[] w0]. cbn [snd] in H0.
  apply (performAll_invariant random clock (fun w => settled (this w)) subdued);
    [| |exact H0].
  - intros d p w1. apply generateBLEFrame_settled.
  - intros f w1 Hw1. destruct (extractVitalSigns_subdued f w1 Hw1) as (H1 & _ & H2).
    now split.
Qed.

End Ceilings.

(** X8: on a generator instance, whatever the calls, every derived reading
    has a whole-number heart rate between 35 and 72 and an oxygen saturation
    between 59 and 98: each walk multiplies the stored value by a stability
    weight below 1, so it never rises above the default it started from, and
    the clamp and the smallest quality factor keep it from falling further
    (85 * 0.7 rounds to 59 in the source's doubles, to 60 exactly). *)
Theorem X8_vitals_never_exceed_defaults (random : nat -> Q) (clock : nat -> Z)
    (cs : list Call) (boot_world : World) :
  unit_interval random ->
  Forall (fun r => 35 <= heartRate r <= 72 /\ whole (heartRate r) /\
                   59 <= oxygenSaturation r <= 98)
    (readingsOf (fst (session random clock cs boot_world))).
Proof.
  intros Hr. destruct (session_settled random clock Hr cs boot_world) as [H _].
  exact H.
Qed.

Lemma X8_vitals_never_exceed_defaults_witness :
  Forall (fun r => 35 <= heartRate r <= 72 /\ whole (heartRate r) /\
                   59 <= oxygenSaturation r <= 98)
    (readingsOf (fst (session (fun _ => 0.5) (fun _ => 0%Z)
                        [CallGenerateWBANReading "P001"] boot))).
Proof.
  apply (X8_vitals_never_exceed_defaults (fun _ => 0.5) (fun _ => 0%Z)
           [CallGenerateWBANReading "P001"] boot).
  intros k. split; [discriminate | reflexivity].
Defined.

(** X9: on a generator instance, whatever the calls made before, the
    reading derived from a wrist frame has oxygen saturation at most 89:
    the wrist walk starts from at most 98 * 0.9 + 1. *)
Theorem X9_wrist_oxygen_at_most_89 (random : nat -> Q) (clock : nat -> Z)
    (cs : list Call) (boot_world : World) (f : BLEWBANFrame) :
  unit_interval random ->
  position f = wrist ->
  let w := snd (session random clock cs boot_world) in
  oxygenSaturation (fst (extractVitalSigns random f w)) <= 89.
Proof.
  intros Hr Hp w.
  destruct (session_settled random clock Hr cs boot_world) as [_ Hs].
  destruct (extractVitalSigns_subdued random Hr f w Hs) as (_ & H & _).
  now apply H.
Qed.

Lemma X9_wrist_oxygen_at_most_89_witness :
  let f := {| frameNumber := 1; frame_timestamp := 0; deviceId := "P001_wrist_l";
              position := wrist; txPower := dbm3; antenna := 1;
              frequency := 2402000000; channelNumber := 0; rssi := -40;
              signalStrength := 75; frameDecoded := true; bitLength := 150;
              maxGradientUnwrappedPhase := []; iComponent := []; qComponent := [] |} in
  let w := snd (session (fun _ => 0.5) (fun _ => 0%Z) [] boot) in
  oxygenSaturation (fst (extractVitalSigns (fun _ => 0.5) f w)) <= 89.
Proof.
  intros f.
  apply (X9_wrist_oxygen_at_most_89 (fun _ => 0.5) (fun _ => 0%Z) [] boot f).
  - intros k. split; [discriminate | reflexivity].
  - reflexivity.
Defined.

(** ** Aggregation: the base reading and the mean heart rate *)

Lemma find_first {A} (P : A -> bool) (pre : list A) (r : A) (post : list A) :
  Forall (fun x => P x = false) pre -> P r = true ->
  List.find P (pre ++ r :: post) = Some r.
Proof.
  induction 1 as [|x pre Hx _ IH]; intros Hr; cbn.
  - now rewrite Hr.
  - rewrite Hx. now apply IH.
Qed.

Lemma find_none {A} (P : A -> bool) (l : list A) :
  Forall (fun x => P x = false) l -> List.find P l = None.
Proof.
  induction 1 as [|x l Hx _ IH]; cbn; [reflexivity|]. now rewrite Hx.
Qed.

Lemma filter_first {A} (P : A -> bool) (pre : list A) (r : A) (post : list A) :
  Forall (fun x => P x = false) pre -> P r = true ->
  List.filter P (pre ++ r :: post) !! 0%nat = Some r.
Proof.
  induction 1 as [|x pre Hx _ IH]; intros Hr; cbn.
  - now rewrite Hr.
  - rewrite Hx. now apply IH.
Qed.

Lemma filter_none {A} (P : A -> bool) (l : list A) :
  Forall (fun x => P x = false) l -> List.filter P l = [].
Proof.
  induction 1 as [|x l Hx _ IH]; cbn; [reflexivity|]. now rewrite Hx.
Qed.

Lemma filter_all {A} (P : A -> bool) (l : list A) :
  Forall (fun x => P x = true) l -> List.filter P l = l.
Proof.
  induction 1 as [|x l Hx _ IH]; cbn; [reflexivity|]. now rewrite Hx, IH.
Qed.

(** The aggregate, given the base reading. *)
Lemma aggregateVitalSigns_from_base (readings : list VitalSignsReading)
    (best : VitalSignsReading) :
  baseReading readings = Some best ->
  exists agg,
    aggregateVitalSigns readings = Some agg /\
    bloodPressure agg = bloodPressure best /\
    oxygenSaturation agg = oxygenSaturation best /\
    temperature agg = temperature best /\
    timestamp agg = timestamp best /\
    batteryLevel agg = batteryLevel best /\
    heartRate agg =
      (let hrReadings := List.filter (fun r => heartRate r >? 0) readings in
       if inject_Z (Z.of_nat (length hrReadings)) >? 0 then
         inject_Z (Math.round
           (fold_left (fun sum r => sum + heartRate r) hrReadings 0
            / inject_Z (Z.of_nat (length hrReadings))))
       else heartRate best).
Proof.
  unfold baseReading, aggregateVitalSigns. intros ->.
  eexists. split; [reflexivity|]. cbn. auto 10.
Qed.

(** The three ranks of the base reading. *)
Lemma baseReading_priority (pre : list VitalSignsReading) (r : VitalSignsReading)
    (post : list VitalSignsReading) :
  (Forall (fun x => signalQuality x <> excellent) pre /\ signalQuality r = excellent) \/
  (Forall (fun x => signalQuality x <> excellent) (pre ++ r :: post) /\
   Forall (fun x => signalQuality x = poor) pre /\ signalQuality r <> poor) \/
  (Forall (fun x => signalQuality x = poor) (pre ++ r :: post) /\ pre = []) ->
  baseReading (pre ++ r :: post) = Some r.
Proof.
  unfold baseReading. intros [[Hpre Hr] | [(Hall & Hpre & Hr) | [Hall ->]]].
  - rewrite find_first; [reflexivity | | now apply bool_decide_eq_true_2].
    eapply Forall_impl; [exact Hpre|]. intros x Hx. now apply bool_decide_eq_false_2.
  - rewrite find_none.
    + rewrite filter_first; [reflexivity | | now apply bool_decide_eq_true_2].
      eapply Forall_impl; [exact Hpre|]. intros x Hx.
      apply bool_decide_eq_false_2. congruence.
    + eapply Forall_impl; [exact Hall|]. intros x Hx. now apply bool_decide_eq_false_2.
  - rewrite find_none.
    + rewrite filter_none; [reflexivity|].
      eapply Forall_impl; [exact Hall|]. intros x Hx.
      apply bool_decide_eq_false_2. congruence.
    + eapply Forall_impl; [exact Hall|]. intros x Hx.
      apply bool_decide_eq_false_2. cbn in Hx. congruence.
Qed.

(** X10: [aggregateVitalSigns] fails (reading a field of [undefined]) on
    the empty sequence and on no other. *)
Theorem X10_aggregate_fails_only_on_empty (readings : list VitalSignsReading) :
  aggregateVitalSigns readings = None <-> readings = [].
Proof.
  split.
  - intros H. destruct readings as [|r rs]; [reflexivity|].
    destruct (aggregateVitalSigns_fields (r :: rs)) as (_ & agg & Hagg & _);
      [discriminate | congruence].
  - intros ->. reflexivity.
Qed.

(** X11: the aggregate copies blood pressure, oxygen saturation,
    temperature, timestamp and battery level from a base reading, which is
    the first reading classified excellent; when there is none, the first
    reading not classified poor; when all are poor, the first reading.  When
    no reading has a positive heart rate, the heart rate is the base
    reading's too. *)
Theorem X11_base_reading_priority (pre : list VitalSignsReading) (r : VitalSignsReading)
    (post : list VitalSignsReading) :
  (Forall (fun x => signalQuality x <> excellent) pre /\ signalQuality r = excellent) \/
  (Forall (fun x => signalQuality x <> excellent) (pre ++ r :: post) /\
   Forall (fun x => signalQuality x = poor) pre /\ signalQuality r <> poor) \/
  (Forall (fun x => signalQuality x = poor) (pre ++ r :: post) /\ pre = []) ->
  exists agg,
    aggregateVitalSigns (pre ++ r :: post) = Some agg /\
    bloodPressure agg = bloodPressure r /\
    oxygenSaturation agg = oxygenSaturation r /\
    temperature agg = temperature r /\
    timestamp agg = timestamp r /\
    batteryLevel agg = batteryLevel r /\
    (Forall (fun x => heartRate x <= 0) (pre ++ r :: post) ->
     heartRate agg = heartRate r).
Proof.
  intros H. apply baseReading_priority in H.
  destruct (aggregateVitalSigns_from_base _ _ H)
    as (agg & Hagg & Hbp & Hox & Ht & Hts & Hb & Hhr).
  exists agg. repeat (split; [assumption|]).
  intros Hnone. rewrite Hhr. cbn zeta.
  rewrite filter_none; [reflexivity|].
  eapply Forall_impl; [exact Hnone|]. intros x Hx. now apply Qgtb_le.
Qed.

Lemma X11_base_reading_priority_witness :
  exists agg,
    aggregateVitalSigns ([poor_reading] ++ fractional_reading :: [poor_reading])
      = Some agg /\
    bloodPressure agg = bloodPressure fractional_reading /\
    oxygenSaturation agg = oxygenSaturation fractional_reading /\
    temperature agg = temperature fractional_reading /\
    timestamp agg = timestamp fractional_reading /\
    batteryLevel agg = batteryLevel fractional_reading /\
    (Forall (fun x => heartRate x <= 0)
       ([poor_reading] ++ fractional_reading :: [poor_reading]) ->
     heartRate agg = heartRate fractional_reading).
Proof.
  apply (X11_base_reading_priority [poor_reading] fractional_reading [poor_reading]).
  left. split; [repeat constructor; discriminate | reflexivity].
Defined.

(** The sum of [n] values between [lo] and [hi], from [a] on. *)
Lemma fold_left_sum_bounds {A} (g : A -> Q) (l : list A) (a lo hi : Q) :
  Forall (fun x => lo <= g x <= hi) l ->
  a + inject_Z (Z.of_nat (length l)) * lo
    <= fold_left (fun sum x => sum + g x) l a
    <= a + inject_Z (Z.of_nat (length l)) * hi.
Proof.
  intros H. revert a. induction H as [|x l [Hx1 Hx2] _ IH]; intros a.
  - cbn [fold_left length]. change (inject_Z (Z.of_nat 0)) with 0. lra.
  - cbn [fold_left length]. destruct (IH (a + g x)) as [I1 I2].
    rewrite Nat2Z.inj_succ, <- Z.add_1_r, inject_Z_plus.
    change (inject_Z 1) with 1.
    set (n := inject_Z (Z.of_nat (length l))) in *.
    split; [eapply Qle_trans; [|exact I1] | eapply Qle_trans; [exact I2|]]; nra.
Qed.

(** The mean of a non-empty list of values between [lo] and [hi]. *)
Lemma mean_bounds {A} (g : A -> Q) (l : list A) (lo hi : Q) :
  l <> [] ->
  Forall (fun x => lo <= g x <= hi) l ->
  lo <= fold_left (fun sum x => sum + g x) l 0 / inject_Z (Z.of_nat (length l)) <= hi.
Proof.
  intros Hne H.
  pose proof (fold_left_sum_bounds g l 0 lo hi H) as [S1 S2].
  assert (0 < inject_Z (Z.of_nat (length l))) as Hn.
  { change 0 with (inject_Z 0). rewrite <- Zlt_Qlt.
    destruct l; [congruence | cbn; lia]. }
  set (n := inject_Z (Z.of_nat (length l))) in *.
  set (s := fold_left (fun sum x => sum + g x) l 0) in *.
  assert (s / n * n == s) as E by (field; lra).
  set (m := s / n) in *.
  split; apply (Qmult_le_r _ _ n Hn); lra.
Qed.

(** X12: when every reading of a non-empty sequence has a heart rate
    between lo and hi, with lo positive, the aggregate's heart rate is a
    whole number between round(lo) and round(hi): it is the rounded mean. *)
Theorem X12_aggregate_heart_rate_is_a_mean (readings : list VitalSignsReading)
    (lo hi : Q) :
  readings <> [] ->
  0 < lo ->
  Forall (fun r => lo <= heartRate r <= hi) readings ->
  exists agg,
    aggregateVitalSigns readings = Some agg /\
    heartRate agg
      = inject_Z (Math.round
          (fold_left (fun sum r => sum + heartRate r) readings 0
           / inject_Z (Z.of_nat (length readings)))) /\
    inject_Z (Math.round lo) <= heartRate agg <= inject_Z (Math.round hi).
Proof.
  intros Hne Hlo Hall.
  destruct (aggregateVitalSigns_fields readings Hne) as (best & agg0 & Hagg0 & _).
  assert (exists b, baseReading readings = Some b) as [b Hb].
  { unfold aggregateVitalSigns in Hagg0. fold (baseReading readings) in Hagg0.
    destruct (baseReading readings) as [b|]; [eauto | discriminate]. }
  destruct (aggregateVitalSigns_from_base readings b Hb)
    as (agg & Hagg & _ & _ & _ & _ & _ & Hhr).
  exists agg. split; [exact Hagg|].
  cbn zeta in Hhr. rewrite filter_all in Hhr.
  2:{ eapply Forall_impl; [exact Hall|]. intros r [Hr _]. apply Qgtb_gt. lra. }
  assert ((inject_Z (Z.of_nat (length readings)) >? 0) = true) as Hpos.
  { apply Qgtb_gt. change 0 with (inject_Z 0). rewrite <- Zlt_Qlt.
    destruct readings; [congruence | cbn; lia]. }
  rewrite Hpos in Hhr. split; [exact Hhr|]. rewrite Hhr.
  destruct (mean_bounds heartRate readings lo hi Hne Hall) as [M1 M2].
  split; apply inject_Z_le, round_mono; assumption.
Qed.

Lemma X12_aggregate_heart_rate_is_a_mean_witness :
  exists agg,
    aggregateVitalSigns [poor_reading; fractional_reading] = Some agg /\
    heartRate agg
      = inject_Z (Math.round
          (fold_left (fun sum r => sum + heartRate r)
             [poor_reading; fractional_reading] 0
           / inject_Z (Z.of_nat (length [poor_reading; fractional_reading])))) /\
    inject_Z (Math.round 50) <= heartRate agg <= inject_Z (Math.round 72.5).
Proof.
  apply (X12_aggregate_heart_rate_is_a_mean [poor_reading; fractional_reading] 50 72.5).
  - discriminate.
  - reflexivity.
  - repeat constructor; discriminate.
Defined.

(** ** The network reading *)

(** The result of [generateWBANReading], given the aggregate of its loop's
    readings. *)
Lemma generateWBANReading_result (random : nat -> Q) (clock : nat -> Z)
    (patientId : string) (w : World) (agg : VitalSignsReading) :
  let collected := fst (sensorReadings random clock patientId w) in
  let count (l : list BLEWBANFrame) := inject_Z (Z.of_nat (length l)) in
  aggregateVitalSigns (map snd collected) = Some agg ->
  generateWBANReading random clock patientId w =
    (Some {| patientId := patientId;
             vitals := agg;
             bleFrames := map fst collected;
             networkStats :=
               {| totalDevices := 6;
                  activeDevices :=
                    Z.of_nat (length (List.filter frameDecoded (map fst collected)));
                  averageRSSI :=
                    inject_Z (Math.round
                      (fold_left (fun sum f => sum + rssi f) (map fst collected) 0
                       / count (map fst collected) * 10)) / 10;
                  packetLossRate :=
                    inject_Z (Math.round
                      ((count (map fst collected)
                        - count (List.filter frameDecoded (map fst collected)))
                       / count (map fst collected) * 1000)) / 10 |} |},
     snd (sensorReadings random clock patientId w)).
Proof.
  cbn zeta. intros Hagg. unfold generateWBANReading, bind, ret.
  destruct (sensorReadings random clock patientId w) as [collected w1].
  cbn [fst snd] in *. now rewrite Hagg.
Qed.

Lemma sensorReadings_length (random : nat -> Q) (clock : nat -> Z)
    (patientId : string) (w : World) :
  length (fst (sensorReadings random clock patientId w)) = 6%nat.
Proof. unfold sensorReadings. now rewrite forEach_length. Qed.

Lemma sensorReadings_aggregate (random : nat -> Q) (clock : nat -> Z)
    (patientId : string) (w : World) :
  exists agg,
    aggregateVitalSigns (map snd (fst (sensorReadings random clock patientId w)))
    = Some agg.
Proof.
  pose proof (sensorReadings_length random clock patientId w) as Hl.
  destruct (aggregateVitalSigns_fields
              (map snd (fst (sensorReadings random clock patientId w))))
    as (_ & agg & Hagg & _); [|eauto].
  destruct (fst (sensorReadings random clock patientId w)); discriminate.
Qed.

(** X13: a network reading carries the patient id it was asked for and
    six frames; its statistics count 6 devices in total and as active the
    frames that were decoded, and the packet-loss percentage is determined
    by that count: 100, 83.3, 66.7, 50, 33.3, 16.7 or 0 for 0 to 6 decoded
    frames. *)
Theorem X13_network_statistics (random : nat -> Q) (clock : nat -> Z)
    (patientId0 : string) (w : World) :
  exists reading,
    fst (generateWBANReading random clock patientId0 w) = Some reading /\
    patientId reading = patientId0 /\
    length (bleFrames reading) = 6%nat /\
    totalDevices (networkStats reading) = 6%Z /\
    activeDevices (networkStats reading)
      = Z.of_nat (length (List.filter frameDecoded (bleFrames reading))) /\
    (0 <= activeDevices (networkStats reading) <= 6)%Z /\
    packetLossRate (networkStats reading)
      == nth (Z.to_nat (activeDevices (networkStats reading)))
           [100; 83.3; 66.7; 50; 33.3; 16.7; 0] 0.
Proof.
  destruct (sensorReadings_aggregate random clock patientId0 w) as [agg Hagg].
  rewrite (generateWBANReading_result random clock patientId0 w agg Hagg).
  eexists. split; [reflexivity|].
  cbn [fst patientId bleFrames networkStats totalDevices activeDevices packetLossRate].
  pose proof (sensorReadings_length random clock patientId0 w) as Hl.
  rewrite <- (length_map fst) in Hl.
  pose proof (filter_length_le frameDecoded
                (map fst (fst (sensorReadings random clock patientId0 w)))) as Hle.
  rewrite Hl in Hle |- *. rewrite Nat2Z.id.
  repeat (split; [first [reflexivity | lia]|]).
  destruct (length (List.filter frameDecoded _)) as [|[|[|[|[|[|[|n]]]]]]];
    [reflexivity .. | lia].
Qed.

(** X14: on a generator instance, with [Math.random()] in [0, 1), the
    average RSSI a network reading reports is between -50 and -30 dBm: it
    is the mean of six RSSIs in [-50, -30), rounded to one decimal. *)
Theorem X14_average_rssi_range (random : nat -> Q) (clock : nat -> Z)
    (cs : list Call) (boot_world : World) (patientId0 : string) :
  unit_interval random ->
  let w := snd (session random clock cs boot_world) in
  exists reading,
    fst (generateWBANReading random clock patientId0 w) = Some reading /\
    Forall (fun f => -50 <= rssi f < -30) (bleFrames reading) /\
    -50 <= averageRSSI (networkStats reading) <= -30.
Proof.
  intros Hr w.
  destruct (sensorReadings_aggregate random clock patientId0 w) as [agg Hagg].
  rewrite (generateWBANReading_result random clock patientId0 w agg Hagg).
  eexists. split; [reflexivity|].
  cbn [fst bleFrames networkStats averageRSSI].
  pose proof (sensorReadings_unscaled random clock Hr patientId0 w
                (session_noise_keys random clock cs boot_world)) as Hun.
  assert (Forall (fun f => -50 <= rssi f < -30)
            (map fst (fst (sensorReadings random clock patientId0 w)))) as Hall.
  { apply Forall_fmap. eapply Forall_impl; [exact Hun|].
    intros fr (_ & _ & H & _). exact H. }
  split; [exact Hall|].
  destruct (mean_bounds rssi (map fst (fst (sensorReadings random clock patientId0 w)))
              (-50) (-30)) as [M1 M2].
  { pose proof (sensorReadings_length random clock patientId0 w) as Hl.
    destruct (fst (sensorReadings random clock patientId0 w)); discriminate. }
  { eapply Forall_impl; [exact Hall|]. intros f [H1 H2]. cbn beta. lra. }
  set (avg := fold_left (fun sum f => sum + rssi f) _ 0 / _) in *.
  split.
  - apply (Qle_trans _ (inject_Z (Math.round (-50 * 10)) / 10)); [discriminate|].
    apply Qdiv10_le, round_mono. lra.
  - apply (Qle_trans _ (inject_Z (Math.round (-30 * 10)) / 10)); [|discriminate].
    apply Qdiv10_le, round_mono. lra.
Qed.

Lemma X14_average_rssi_range_witness :
  let w := snd (session (fun _ => 0.5) (fun _ => 0%Z) [] boot) in
  exists reading,
    fst (generateWBANReading (fun _ => 0.5) (fun _ => 0%Z) "P001" w) = Some reading /\
    Forall (fun f => -50 <= rssi f < -30) (bleFrames reading) /\
    -50 <= averageRSSI (networkStats reading) <= -30.
Proof.
  apply (X14_average_rssi_range (fun _ => 0.5) (fun _ => 0%Z) [] boot "P001").
  intros k. split; [discriminate | reflexivity].
Defined.

Lemma forEach_cons {A B} (f : A -> M B) (x : A) (l : list A) (w : World) :
  fst (forEach (x :: l) f w) = fst (f x w) :: fst (forEach l f (snd (f x w))).
Proof.
  cbn [forEach]. unfold bind, ret.
  destruct (f x w) as [y w1]. cbn [fst snd].
  now destruct (forEach l f w1).
Qed.

(** The loop starts with the chest sensor. *)
Lemma sensorReadings_first (random : nat -> Q) (clock : nat -> Z)
    (patientId : string) (w : World) :
  exists others,
    fst (sensorReadings random clock patientId w)
    = fst (readSensor random clock patientId
             {| id := "chest"; name := "Chest ECG"; sensor_position := chest;
                priority := 1 |} w) :: others.
Proof.
  unfold sensorReadings, WBAN_POSITIONS. rewrite forEach_cons.
  eexists. reflexivity.
Qed.

(** X15: on a generator instance, the first frame of a network reading is
    the chest sensor's, and whenever that frame was decoded the aggregate
    reports blood pressure 120/80, oxygen saturation 98 and temperature 98.6
    whatever the other sensors measured: the chest reading is excellent,
    comes first, and the chest case derives the heart rate only. *)
Theorem X15_decoded_chest_frame_fixes_vitals (random : nat -> Q) (clock : nat -> Z)
    (cs : list Call) (boot_world : World) (patientId0 : string) :
  unit_interval random ->
  let w := snd (session random clock cs boot_world) in
  exists reading chestFrame others,
    fst (generateWBANReading random clock patientId0 w) = Some reading /\
    bleFrames reading = chestFrame :: others /\
    deviceId chestFrame = patientId0 +:+ "_chest" /\
    position chestFrame = chest /\
    (frameDecoded chestFrame = true ->
     systolic (bloodPressure (vitals reading)) == 120 /\
     diastolic (bloodPressure (vitals reading)) == 80 /\
     oxygenSaturation (vitals reading) == 98 /\
     temperature (vitals reading) == 98.6 /\
     timestamp (vitals reading) = frame_timestamp chestFrame).
Proof.
  intros Hr w.
  set (sensor := {| id := "chest"; name := "Chest ECG"; sensor_position := chest;
                    priority := 1 |}).
  destruct (sensorReadings_first random clock patientId0 w) as [others Hfirst].
  fold sensor in Hfirst.
  destruct (sensorReadings_aggregate random clock patientId0 w) as [agg Hagg].
  rewrite (generateWBANReading_result random clock patientId0 w agg Hagg).
  cbn [fst]. rewrite Hfirst in Hagg |- *.
  pose proof (readSensor_unscaled random clock Hr patientId0 sensor w) as Hun.
  specialize (Hun ltac:(apply elem_of_cons; now left)
                  (session_noise_keys random clock cs boot_world)).
  destruct Hun as (_ & _ & _ & Hq & _).
  rewrite readSensor_unfold in Hq, Hagg |- *. cbn [fst snd] in Hq, Hagg |- *.
  destruct (generateBLEFrame_spec random clock
              (patientId0 +:+ "_" +:+ id sensor) (sensor_position sensor) w)
    as (_ & _ & Hd & Hp & _).
  set (f := fst (generateBLEFrame random clock
                   (patientId0 +:+ "_" +:+ id sensor) (sensor_position sensor) w)) in *.
  set (w1 := snd (generateBLEFrame random clock
                    (patientId0 +:+ "_" +:+ id sensor) (sensor_position sensor) w)) in *.
  eexists _, f, _. split; [reflexivity|]. cbn [bleFrames vitals map fst].
  split; [reflexivity|]. split; [exact Hd|]. split; [exact Hp|].
  intros Hdec. rewrite Hdec in Hq.
  set (r := fst (extractVitalSigns random f w1)) in *.
  change (map snd ((f, r) :: others)) with ([] ++ r :: map snd others) in Hagg.
  destruct (aggregateVitalSigns_from_base ([] ++ r :: map snd others) r)
    as (agg' & Hagg' & Hbp & Hox & Ht & Hts & _).
  { apply baseReading_priority. left. split; [constructor | exact Hq]. }
  rewrite Hagg in Hagg'. injection Hagg' as <-.
  rewrite Hbp, Hox, Ht, Hts.
  pose proof (extractVitalSigns_reading random f w1) as Hread. fold r in Hread.
  cbn zeta in Hread. rewrite Hread in Hq. cbn [signalQuality] in Hq.
  rewrite Hread, Hq, Hp.
  cbn [bloodPressure systolic diastolic oxygenSaturation temperature timestamp
       sensor_position sensor].
  repeat split; reflexivity.
Qed.

Lemma X15_decoded_chest_frame_fixes_vitals_witness :
  let w := snd (session (fun _ => 0.5) (fun _ => 0%Z) [] boot) in
  exists reading chestFrame others,
    fst (generateWBANReading (fun _ => 0.5) (fun _ => 0%Z) "P001" w) = Some reading /\
    bleFrames reading = chestFrame :: others /\
    deviceId chestFrame = "P001" +:+ "_chest" /\
    position chestFrame = chest /\
    (frameDecoded chestFrame = true ->
     systolic (bloodPressure (vitals reading)) == 120 /\
     diastolic (bloodPressure (vitals reading)) == 80 /\
     oxygenSaturation (vitals reading) == 98 /\
     temperature (vitals reading) == 98.6 /\
     timestamp (vitals reading) = frame_timestamp chestFrame).
Proof.
  apply (X15_decoded_chest_frame_fixes_vitals (fun _ => 0.5) (fun _ => 0%Z) [] boot "P001").
  intros k. split; [discriminate | reflexivity].
Defined.

(** ** The network reading: what it stores *)

Lemma append_inj (p a b : string) : p +:+ a = p +:+ b -> a = b.
Proof.
  induction p as [|c p IH]; [trivial|].
  change (String c p +:+ a) with (String c (p +:+ a)).
  change (String c p +:+ b) with (String c (p +:+ b)).
  intros H. injection H as H. now apply IH.
Qed.

Lemma composite_id_inj (patientId a b : string) :
  patientId +:+ "_" +:+ a = patientId +:+ "_" +:+ b -> a = b.
Proof. intros H. apply append_inj in H. now apply (append_inj "_") in H. Qed.

Lemma WBAN_POSITIONS_distinct : NoDup (id <$> WBAN_POSITIONS).
Proof. apply (bool_decide_unpack _). vm_compute. exact I. Qed.

Section Stores.

Variable random : nat -> Q.
Variable clock : nat -> Z.

(** One sensor of the loop: the frame's identity, and the reading stored
    under the frame's device only. *)
Lemma readSensor_store patientId sensor w :
  let fr := fst (readSensor random clock patientId sensor w) in
  let w' := snd (readSensor random clock patientId sensor w) in
  deviceId (fst fr) = patientId +:+ "_" +:+ id sensor /\
  position (fst fr) = sensor_position sensor /\
  lastReadings (this w') !! deviceId (fst fr) = Some (snd fr) /\
  (forall d, d <> patientId +:+ "_" +:+ id sensor ->
     lastReadings (this w') !! d = lastReadings (this w) !! d).
Proof.
  rewrite readSensor_unfold. cbn [fst snd].
  destruct (generateBLEFrame_spec random clock
              (patientId +:+ "_" +:+ id sensor) (sensor_position sensor) w)
    as (Hw & _ & Hd & Hp & _).
  rewrite extractVitalSigns_this. cbn [lastReadings]. rewrite Hw, Hd.
  cbn [lastReadings].
  split; [reflexivity|]. split; [exact Hp|].
  split; [apply lookup_insert_eq|].
  intros d Hne. now apply lookup_insert_ne.
Qed.

Lemma sensor_loop_store patientId (sensors : list SensorPosition) w :
  NoDup (id <$> sensors) ->
  let collected := fst (forEach sensors (readSensor random clock patientId) w) in
  let w' := snd (forEach sensors (readSensor random clock patientId) w) in
  map (fun fr => deviceId (fst fr)) collected
    = map (fun s => patientId +:+ "_" +:+ id s) sensors /\
  map (fun fr => position (fst fr)) collected = map sensor_position sensors /\
  Forall (fun fr => lastReadings (this w') !! deviceId (fst fr) = Some (snd fr))
    collected /\
  (forall d, d ∉ map (fun s => patientId +:+ "_" +:+ id s) sensors ->
     lastReadings (this w') !! d = lastReadings (this w) !! d).
Proof.
  revert w. induction sensors as [|s l IH]; intros w Hnd.
  - cbn. repeat split; first [reflexivity | constructor].
  - apply NoDup_cons in Hnd as [Hs Hnd].
    cbn [forEach]. unfold bind, ret.
    destruct (readSensor_store patientId s w) as (Hd & Hp & Hst & Hrest).
    destruct (readSensor random clock patientId s w) as [fr w1].
    cbn [fst snd] in Hd, Hp, Hst, Hrest.
    specialize (IH w1 Hnd). cbn zeta in IH.
    destruct (forEach l (readSensor random clock patientId) w1) as [frs w2].
    cbn [fst snd map] in *. destruct IH as (IHd & IHp & IHst & IHrest).
    assert (patientId +:+ "_" +:+ id s
            ∉ map (fun s0 => patientId +:+ "_" +:+ id s0) l) as Hfresh.
    { intros Hin. apply Hs. apply list_elem_of_fmap in Hin as (s' & E & Hs').
      apply composite_id_inj in E. rewrite E. now apply list_elem_of_fmap_2. }
    repeat split.
    + now rewrite Hd, IHd.
    + now rewrite Hp, IHp.
    + constructor; [|exact IHst].
      rewrite Hd, IHrest; [|exact Hfresh]. now rewrite <- Hd.
    + intros d Hd'. apply not_elem_of_cons in Hd' as [Hne Hd'].
      now rewrite IHrest, Hrest.
Qed.

End Stores.

(** X16: a network reading for a patient generates its six frames in
    catalog order, for the devices patientId_chest, patientId_wrist_l, ...
    at the catalog's positions; afterwards the generator holds, for each of
    these devices, the reading derived from its frame as last reading, has
    left every other device's last reading as it was, and has advanced the
    frame counter by 6. *)
Theorem X16_network_reading_stores_six_readings (random : nat -> Q) (clock : nat -> Z)
    (patientId0 : string) (w : World) :
  let collected := fst (sensorReadings random clock patientId0 w) in
  let w' := snd (generateWBANReading random clock patientId0 w) in
  exists reading,
    fst (generateWBANReading random clock patientId0 w) = Some reading /\
    bleFrames reading = map fst collected /\
    deviceId <$> bleFrames reading
      = (fun s => patientId0 +:+ "_" +:+ id s) <$> WBAN_POSITIONS /\
    position <$> bleFrames reading = sensor_position <$> WBAN_POSITIONS /\
    Forall (fun fr => lastReadings (this w') !! deviceId (fst fr) = Some (snd fr))
      collected /\
    (forall d, d ∉ (fun s => patientId0 +:+ "_" +:+ id s) <$> WBAN_POSITIONS ->
       lastReadings (this w') !! d = lastReadings (this w) !! d) /\
    frameCounter (this w') = (frameCounter (this w) + 6)%Z.
Proof.
  cbn zeta.
  destruct (sensorReadings_aggregate random clock patientId0 w) as [agg Hagg].
  rewrite (generateWBANReading_result random clock patientId0 w agg Hagg).
  eexists. split; [reflexivity|]. cbn [fst snd bleFrames].
  split; [reflexivity|].
  destruct (sensor_loop_store random clock patientId0 WBAN_POSITIONS w
              WBAN_POSITIONS_distinct) as (Hd & Hp & Hst & Hrest).
  fold (sensorReadings random clock patientId0) in Hd, Hp, Hst, Hrest.
  destruct (sensor_loop_frames random clock patientId0 WBAN_POSITIONS w) as [_ Hc].
  fold (sensorReadings random clock patientId0) in Hc.
  rewrite length_map, sensorReadings_length in Hc.
  change (deviceId <$> map fst (fst (sensorReadings random clock patientId0 w)))
    with (map deviceId (map fst (fst (sensorReadings random clock patientId0 w)))).
  change (position <$> map fst (fst (sensorReadings random clock patientId0 w)))
    with (map position (map fst (fst (sensorReadings random clock patientId0 w)))).
  rewrite !map_map.
  repeat split; assumption.
Qed.

(** ** The monitoring component *)

(** Case analysis on every comparison of the goal, with each outcome as an
    inequality in the context. *)
Ltac compare_all :=
  unfold Qgtb in *;
  repeat match goal with
         | |- context [?a <? ?b] =>
             let E := fresh "E" in
             destruct (a <? b) eqn:E;
             [apply Qltb_lt in E | apply Qltb_ge in E]
         end;
  cbn [orb andb negb].

Lemma alertLevelOf_spec (hr sys ox t : Q) :
  (alertLevelOf hr sys ox t = critical <-> 120 < hr \/ ox < 90) /\
  (alertLevelOf hr sys ox t = normal
   <-> 60 <= hr <= 100 /\ sys <= 140 /\ 95 <= ox /\ t <= 100.4).
Proof.
  unfold alertLevelOf. compare_all;
    (split;
     (split;
      [ intros H;
        first [ discriminate H | left; lra | right; lra | repeat split; lra ]
      | intros H; first [ reflexivity | exfalso; lra ] ])).
Qed.

(** X17: [getVitalStatus] never returns critical, whatever the vital's name
    and value: each case returns warning from a range that contains the
    critical range tested after it.  So the badge colour is never the
    emergency one; a heart rate is flagged warning exactly outside
    [60, 100], an oxygen saturation below 95, a temperature outside
    [97, 100.4]. *)
Theorem X17_status_never_critical (vital : string) (value : Q) :
  (getVitalStatus vital value = "normal" \/ getVitalStatus vital value = "warning") /\
  getVitalStatus vital value <> "critical" /\
  getStatusColor (getVitalStatus vital value) <> "text-medical-emergency" /\
  (getVitalStatus "heartRate" value = "warning" <-> value < 60 \/ 100 < value) /\
  (getVitalStatus "oxygenSaturation" value = "warning" <-> value < 95) /\
  (getVitalStatus "temperature" value = "warning" <-> 100.4 < value \/ value < 97).
Proof.
  assert (getVitalStatus vital value = "normal" \/ getVitalStatus vital value = "warning")
    as Hstatus.
  { unfold getVitalStatus.
    destruct (String.eqb vital "heartRate");
      [|destruct (String.eqb vital "oxygenSaturation");
        [|destruct (String.eqb vital "temperature"); [|now left]]];
      compare_all; first [now left | now right | exfalso; lra]. }
  split; [exact Hstatus|].
  split; [destruct Hstatus as [-> | ->]; discriminate|].
  split; [destruct Hstatus as [-> | ->]; discriminate|].
  unfold getVitalStatus.
  change (String.eqb "heartRate" "heartRate") with true.
  change (String.eqb "oxygenSaturation" "heartRate") with false.
  change (String.eqb "oxygenSaturation" "oxygenSaturation") with true.
  change (String.eqb "temperature" "heartRate") with false.
  change (String.eqb "temperature" "oxygenSaturation") with false.
  change (String.eqb "temperature" "temperature") with true.
  cbn iota.
  repeat split; compare_all; intros H;
    first [ reflexivity | discriminate H | left; lra | right; lra | lra
          | destruct H; exfalso; lra | exfalso; lra ].
Qed.

(** The state after a tick of the polling revision. *)
Lemma WBAN_tick_state (random : nat -> Q) (clock : nat -> Z) (patientId0 : string)
    (st : WBANMonitoring.State) (w : World) :
  exists data,
    fst (generateWBANReading random clock patientId0 w) = Some data /\
    snd (WBANMonitoring.tick random clock patientId0 st w)
      = snd (sensorReadings random clock patientId0 w) /\
    let v := vitals data in
    let level := alertLevelOf (heartRate v) (systolic (bloodPressure v))
                   (oxygenSaturation v) (temperature v) in
    fst (WBANMonitoring.tick random clock patientId0 st w)
    = {| WBANMonitoring.wbanData := Some data;
         WBANMonitoring.alertLevel := level;
         WBANMonitoring.toasts :=
           match level with
           | critical =>
               WBANMonitoring.toasts st ++
               [{| title := "CRITICAL ALERT";
                   description :=
                     "Patient " +:+ patientId0
                     +:+ " requires immediate attention - Signal Quality: "
                     +:+ quality_string (signalQuality v);
                   variant := Some "destructive" |}]
           | _ => WBANMonitoring.toasts st
           end |}.
Proof.
  destruct (sensorReadings_aggregate random clock patientId0 w) as [agg Hagg].
  pose proof (generateWBANReading_result random clock patientId0 w agg Hagg) as Hres.
  cbn zeta in Hres.
  unfold WBANMonitoring.tick, bind, ret. rewrite Hres. cbn [fst snd].
  eexists. split; [reflexivity|]. split; reflexivity.
Qed.

(** X18: a tick of the polling monitor shows the new network reading and
    sets the alert level from its aggregated vitals: critical exactly when
    the heart rate is above 120 or the oxygen saturation below 90 (blood
    pressure and temperature can raise a warning only), normal exactly when
    heart rate is in [60, 100], systolic at most 140, oxygen saturation at
    least 95 and temperature at most 100.4.  It raises one toast, titled
    CRITICAL ALERT, on a critical tick and none otherwise. *)
Theorem X18_tick_alert_level (random : nat -> Q) (clock : nat -> Z)
    (patientId0 : string) (st : WBANMonitoring.State) (w : World) :
  let st' := fst (WBANMonitoring.tick random clock patientId0 st w) in
  exists data,
    fst (generateWBANReading random clock patientId0 w) = Some data /\
    WBANMonitoring.wbanData st' = Some data /\
    let v := vitals data in
    (WBANMonitoring.alertLevel st' = critical
     <-> 120 < heartRate v \/ oxygenSaturation v < 90) /\
    (WBANMonitoring.alertLevel st' = normal
     <-> 60 <= heartRate v <= 100 /\ systolic (bloodPressure v) <= 140 /\
         95 <= oxygenSaturation v /\ temperature v <= 100.4) /\
    (WBANMonitoring.alertLevel st' = critical ->
     exists t, WBANMonitoring.toasts st' = WBANMonitoring.toasts st ++ [t] /\
               title t = "CRITICAL ALERT") /\
    (WBANMonitoring.alertLevel st' <> critical ->
     WBANMonitoring.toasts st' = WBANMonitoring.toasts st).
Proof.
  cbn zeta.
  destruct (WBAN_tick_state random clock patientId0 st w) as (data & Hdata & _ & Hst).
  cbn zeta in Hst. rewrite Hst. clear Hst.
  exists data. split; [exact Hdata|].
  cbn [WBANMonitoring.wbanData WBANMonitoring.alertLevel WBANMonitoring.toasts].
  split; [reflexivity|].
  destruct (alertLevelOf_spec (heartRate (vitals data))
              (systolic (bloodPressure (vitals data)))
              (oxygenSaturation (vitals data)) (temperature (vitals data)))
    as [Hc Hn].
  split; [exact Hc|]. split; [exact Hn|].
  destruct (alertLevelOf _ _ _ _); split; intros H;
    first [ discriminate H | congruence | reflexivity | (eexists; split; reflexivity) ].
Qed.

(** X19: with [Math.random()] in [0, 1), a tick of the simulating monitor
    draws a heart rate in [60, 99], a systolic pressure in [110, 149], a
    diastolic pressure in [70, 99], an oxygen saturation in [95, 99] and a
    temperature in [97, 101]; so its alert level is never critical and it
    never raises a toast, and the level is warning exactly when the systolic
    pressure is above 140 or the temperature above 100.4. *)
Theorem X19_simulated_monitor_never_critical (random : nat -> Q) (clock : nat -> Z)
    (st : SimulatedMonitoring.State) (w : World) :
  unit_interval random ->
  let st' := fst (SimulatedMonitoring.tick random clock st w) in
  let v := SimulatedMonitoring.vitals st' in
  60 <= SimulatedMonitoring.heartRate v <= 99 /\
  110 <= systolic (SimulatedMonitoring.bloodPressure v) <= 149 /\
  70 <= diastolic (SimulatedMonitoring.bloodPressure v) <= 99 /\
  95 <= SimulatedMonitoring.oxygenSaturation v <= 99 /\
  97 <= SimulatedMonitoring.temperature v <= 101 /\
  SimulatedMonitoring.alertLevel st' <> critical /\
  SimulatedMonitoring.toasts st' = SimulatedMonitoring.toasts st /\
  (SimulatedMonitoring.alertLevel st' = warning
   <-> 140 < systolic (SimulatedMonitoring.bloodPressure v)
       \/ 100.4 < SimulatedMonitoring.temperature v).
Proof.
  intros Hr st' v.
  pose (k := random_calls w).
  pose proof (floor_scaled_range (random k) 40 eq_refl (Hr k)) as Rh.
  pose proof (floor_scaled_range (random (S k)) 40 eq_refl (Hr (S k))) as Rs.
  pose proof (floor_scaled_range (random (S (S k))) 30 eq_refl (Hr (S (S k)))) as Rd.
  pose proof (floor_scaled_range (random (S (S (S k)))) 5 eq_refl (Hr (S (S (S k)))))
    as Ro.
  destruct (Hr (S (S (S (S k))))) as [T0 T1].
  subst k. cbv beta in *.
  change (inject_Z 40) with 40 in Rh, Rs. change (inject_Z 30) with 30 in Rd.
  change (inject_Z 5) with 5 in Ro.
  assert (60 <= SimulatedMonitoring.heartRate v <= 99) as Hh.
  { change (SimulatedMonitoring.heartRate v)
      with (inject_Z (Math.floor (random (random_calls w) * 40) + 60)).
    change 60 with (inject_Z 60) at 1. change 99 with (inject_Z 99).
    split; apply inject_Z_le; lia. }
  assert (110 <= systolic (SimulatedMonitoring.bloodPressure v) <= 149) as Hs.
  { change (systolic (SimulatedMonitoring.bloodPressure v))
      with (inject_Z (Math.floor (random (S (random_calls w)) * 40) + 110)).
    change 110 with (inject_Z 110) at 1. change 149 with (inject_Z 149).
    split; apply inject_Z_le; lia. }
  assert (70 <= diastolic (SimulatedMonitoring.bloodPressure v) <= 99) as Hd.
  { change (diastolic (SimulatedMonitoring.bloodPressure v))
      with (inject_Z (Math.floor (random (S (S (random_calls w))) * 30) + 70)).
    change 70 with (inject_Z 70) at 1. change 99 with (inject_Z 99).
    split; apply inject_Z_le; lia. }
  assert (95 <= SimulatedMonitoring.oxygenSaturation v <= 99) as Ho.
  { change (SimulatedMonitoring.oxygenSaturation v)
      with (inject_Z (Math.floor (random (S (S (S (random_calls w)))) * 5) + 95)).
    change 95 with (inject_Z 95) at 1. change 99 with (inject_Z 99).
    split; apply inject_Z_le; lia. }
  assert (97 <= SimulatedMonitoring.temperature v <= 101) as Ht.
  { change (SimulatedMonitoring.temperature v)
      with (inject_Z (Math.round
              ((random (S (S (S (S (random_calls w))))) * 4 + 97) * 10)) / 10).
    split.
    - apply (Qle_trans _ (inject_Z (Math.round 970) / 10)); [discriminate|].
      apply Qdiv10_le, round_mono. lra.
    - apply (Qle_trans _ (inject_Z (Math.round 1010) / 10)); [|discriminate].
      apply Qdiv10_le, round_mono. lra. }
  repeat (split; [assumption|]).
  destruct (alertLevelOf_spec (SimulatedMonitoring.heartRate v)
              (systolic (SimulatedMonitoring.bloodPressure v))
              (SimulatedMonitoring.oxygenSaturation v)
              (SimulatedMonitoring.temperature v)) as [Hc Hn].
  change (SimulatedMonitoring.alertLevel st')
    with (alertLevelOf (SimulatedMonitoring.heartRate v)
            (systolic (SimulatedMonitoring.bloodPressure v))
            (SimulatedMonitoring.oxygenSaturation v)
            (SimulatedMonitoring.temperature v)).
  assert (alertLevelOf (SimulatedMonitoring.heartRate v)
            (systolic (SimulatedMonitoring.bloodPressure v))
            (SimulatedMonitoring.oxygenSaturation v)
            (SimulatedMonitoring.temperature v) <> critical) as Hnc.
  { intros E. apply Hc in E. destruct E; lra. }
  split; [exact Hnc|]. split.
  - change (SimulatedMonitoring.toasts st')
      with (match alertLevelOf (SimulatedMonitoring.heartRate v)
                    (systolic (SimulatedMonitoring.bloodPressure v))
                    (SimulatedMonitoring.oxygenSaturation v)
                    (SimulatedMonitoring.temperature v) with
            | critical =>
                SimulatedMonitoring.toasts st ++
                [{| title := "CRITICAL ALERT";
                    description := "Patient requires immediate attention";
                    variant := Some "destructive" |}]
            | _ => SimulatedMonitoring.toasts st
            end).
    now destruct (alertLevelOf _ _ _ _).
  - destruct (alertLevelOf _ _ _ _) eqn:E.
    + split; [discriminate|]. intros H.
      destruct Hn as [Hn _]. specialize (Hn eq_refl). destruct H; lra.
    + split; [intros _|reflexivity].
      destruct (Qlt_le_dec 140 (systolic (SimulatedMonitoring.bloodPressure v)));
        [now left|].
      destruct (Qlt_le_dec 100.4 (SimulatedMonitoring.temperature v)); [now right|].
      destruct Hn as [_ Hn]. discriminate Hn. repeat split; lra.
    + congruence.
Qed.

Lemma X19_simulated_monitor_never_critical_witness :
  let st' := fst (SimulatedMonitoring.tick (fun _ => 0.5) (fun _ => 0%Z)
                    (SimulatedMonitoring.initial 0) boot) in
  let v := SimulatedMonitoring.vitals st' in
  60 <= SimulatedMonitoring.heartRate v <= 99 /\
  110 <= systolic (SimulatedMonitoring.bloodPressure v) <= 149 /\
  70 <= diastolic (SimulatedMonitoring.bloodPressure v) <= 99 /\
  95 <= SimulatedMonitoring.oxygenSaturation v <= 99 /\
  97 <= SimulatedMonitoring.temperature v <= 101 /\
  SimulatedMonitoring.alertLevel st' <> critical /\
  SimulatedMonitoring.toasts st' = SimulatedMonitoring.toasts (SimulatedMonitoring.initial 0) /\
  (SimulatedMonitoring.alertLevel st' = warning
   <-> 140 < systolic (SimulatedMonitoring.bloodPressure v)
       \/ 100.4 < SimulatedMonitoring.temperature v).
Proof.
  apply (X19_simulated_monitor_never_critical (fun _ => 0.5) (fun _ => 0%Z)
           (SimulatedMonitoring.initial 0) boot).
  intros k. split; [discriminate | reflexivity].
Defined.

(** ** The polling monitor over its life *)

Section Mounted.

Variable random : nat -> Q.
Variable clock : nat -> Z.
Hypothesis random_range : unit_interval random.

Lemma sensorReadings_subdued patientId w :
  settled (this w) ->
  Forall subdued (map snd (fst (sensorReadings random clock patientId w))) /\
  settled (this (snd (sensorReadings random clock patientId w))).
Proof.
  intros Hw. unfold sensorReadings.
  destruct (forEach_invariant (fun w => settled (this w)) (fun fr => subdued (snd fr))
              (readSensor random clock patientId) WBAN_POSITIONS) with (w := w)
    as [Hp Hi]; [|exact Hw|].
  - intros s w0 _ Hw0. rewrite readSensor_unfold. cbn [fst snd].
    destruct (extractVitalSigns_subdued random random_range
                (fst (generateBLEFrame random clock
                        (patientId +:+ "_" +:+ id s) (sensor_position s) w0))
                (snd (generateBLEFrame random clock
                        (patientId +:+ "_" +:+ id s) (sensor_position s) w0)))
      as (H1 & _ & H2); [|now split].
    now apply generateBLEFrame_settled.
  - split; [|exact Hi]. now apply Forall_fmap.
Qed.

(** The mean of subdued heart rates is subdued. *)
Lemma aggregate_subdued (readings : list VitalSignsReading) (agg : VitalSignsReading) :
  readings <> [] ->
  Forall subdued readings ->
  aggregateVitalSigns readings = Some agg ->
  35 <= heartRate agg <= 72.
Proof.
  intros Hne Hall Hagg.
  assert (exists b, baseReading readings = Some b) as [b Hb].
  { unfold aggregateVitalSigns in Hagg. fold (baseReading readings) in Hagg.
    destruct (baseReading readings) as [b|]; [eauto | discriminate]. }
  destruct (aggregateVitalSigns_from_base readings b Hb)
    as (agg' & Hagg' & _ & _ & _ & _ & _ & Hhr).
  rewrite Hagg in Hagg'. injection Hagg' as <-.
  assert (Forall (fun r => 35 <= heartRate r <= 72) readings) as Hb35.
  { eapply Forall_impl; [exact Hall|]. intros r (H & _). exact H. }
  cbn zeta in Hhr. rewrite filter_all in Hhr.
  2:{ eapply Forall_impl; [exact Hb35|]. intros r [Hr _]. apply Qgtb_gt. lra. }
  assert ((inject_Z (Z.of_nat (length readings)) >? 0) = true) as Hpos.
  { apply Qgtb_gt. change 0 with (inject_Z 0). rewrite <- Zlt_Qlt.
    destruct readings; [congruence | cbn; lia]. }
  rewrite Hpos in Hhr. rewrite Hhr.
  change 35 with (inject_Z 35). change 72 with (inject_Z 72).
  apply round_between. change (inject_Z 35) with 35. change (inject_Z 72) with 72.
  now apply mean_bounds.
Qed.

Lemma tick_subdued patientId st w :
  settled (this w) ->
  critical_toasts st ->
  let st' := fst (WBANMonitoring.tick random clock patientId st w) in
  let w' := snd (WBANMonitoring.tick random clock patientId st w) in
  shows_subdued st' /\
  critical_toasts st' /\
  (length (WBANMonitoring.toasts st') <= S (length (WBANMonitoring.toasts st)))%nat /\
  settled (this w').
Proof.
  intros Hw Ht. cbn zeta.
  destruct (WBAN_tick_state random clock patientId st w) as (data & Hdata & Hw' & Hst).
  cbn zeta in Hst. rewrite Hst, Hw'. clear Hst Hw'.
  destruct (sensorReadings_subdued patientId w Hw) as [Hsub Hset].
  destruct (sensorReadings_aggregate random clock patientId w) as [agg Hagg].
  rewrite (generateWBANReading_result random clock patientId w agg Hagg) in Hdata.
  cbn [fst] in Hdata. injection Hdata as <-. cbn [vitals].
  assert (35 <= heartRate agg <= 72) as Hhr.
  { apply (aggregate_subdued _ agg) in Hsub; [exact Hsub | | exact Hagg].
    pose proof (sensorReadings_length random clock patientId w) as Hl.
    destruct (fst (sensorReadings random clock patientId w)); discriminate. }
  destruct (alertLevelOf_spec (heartRate agg) (systolic (bloodPressure agg))
              (oxygenSaturation agg) (temperature agg)) as [Hc _].
  unfold shows_subdued, critical_toasts in *.
  cbn [WBANMonitoring.wbanData WBANMonitoring.alertLevel WBANMonitoring.toasts].
  split; [|split; [|split; [|exact Hset]]].
  - eexists. split; [reflexivity|]. cbn [vitals]. split; [exact Hhr|].
    rewrite Hc. split; [intros [H | H]; [lra | exact H] | now right].
  - destruct (alertLevelOf _ _ _ _); try exact Ht.
    apply Forall_app. split; [exact Ht | repeat constructor].
  - destruct (alertLevelOf _ _ _ _); try lia.
    rewrite length_app. cbn. lia.
Qed.

Lemma ticks_subdued patientId n :
  forall st w,
    settled (this w) -> shows_subdued st -> critical_toasts st ->
    let st' := fst (WBANMonitoring.ticks random clock patientId n st w) in
    shows_subdued st' /\
    critical_toasts st' /\
    (length (WBANMonitoring.toasts st') <= length (WBANMonitoring.toasts st) + n)%nat.
Proof.
  induction n as [|n IH]; intros st w Hw Hs Ht.
  - cbn. repeat split; [exact Hs | exact Ht | lia].
  - cbn [WBANMonitoring.ticks]. unfold bind.
    destruct (tick_subdued patientId st w Hw Ht) as (Hs1 & Ht1 & Hl1 & Hw1).
    destruct (WBANMonitoring.tick random clock patientId st w) as [st1 w1].
    cbn [fst snd] in *.
    destruct (IH st1 w1 Hw1 Hs1 Ht1) as (Hs2 & Ht2 & Hl2).
    repeat split; [exact Hs2 | exact Ht2 | lia].
Qed.

End Mounted.

(** X20: a mounted polling monitor, after its first tick and after every
    later one, shows a network reading whose heart rate is between 35 and
    72, so the heart-rate conditions of its alert test (above 100, above 120)
    never hold and its alert level is critical exactly when the shown oxygen
    saturation is below 90; every toast it has raised is a CRITICAL ALERT,
    at most one per tick. *)
Theorem X20_mounted_monitor_alerts (random : nat -> Q) (clock : nat -> Z)
    (patientId0 : string) (n : nat) (boot_world : World) :
  unit_interval random ->
  let st := fst (WBANMonitoring.mounted random clock patientId0 (S n) boot_world) in
  exists data,
    WBANMonitoring.wbanData st = Some data /\
    35 <= heartRate (vitals data) <= 72 /\
    (WBANMonitoring.alertLevel st = critical <-> oxygenSaturation (vitals data) < 90) /\
    Forall (fun t => title t = "CRITICAL ALERT") (WBANMonitoring.toasts st) /\
    (length (WBANMonitoring.toasts st) <= S n)%nat.
Proof.
  intros Hr. cbn zeta. unfold WBANMonitoring.mounted, bind.
  pose proof (constructor_settled random boot_world) as H0.
  destruct (constructor random boot_world) as [[] w0]. cbn [snd] in H0.
  cbn [WBANMonitoring.ticks]. unfold bind.
  destruct (tick_subdued random clock Hr patientId0 WBANMonitoring.initial w0 H0)
    as (Hs1 & Ht1 & Hl1 & Hw1); [constructor|].
  destruct (WBANMonitoring.tick random clock patientId0 WBANMonitoring.initial w0)
    as [st1 w1].
  cbn [fst snd] in *.
  destruct (ticks_subdued random clock Hr patientId0 n st1 w1 Hw1 Hs1 Ht1)
    as ((data & Hd & Hh & Hc) & Ht2 & Hl2).
  exists data. repeat split; try assumption; try apply Hc; try apply Hh.
  cbn in Hl1. lia.
Qed.

Lemma X20_mounted_monitor_alerts_witness :
  let st := fst (WBANMonitoring.mounted (fun _ => 0.5) (fun _ => 0%Z) "P001" 1 boot) in
  exists data,
    WBANMonitoring.wbanData st = Some data /\
    35 <= heartRate (vitals data) <= 72 /\
    (WBANMonitoring.alertLevel st = critical <-> oxygenSaturation (vitals data) < 90) /\
    Forall (fun t => title t = "CRITICAL ALERT") (WBANMonitoring.toasts st) /\
    (length (WBANMonitoring.toasts st) <= 1)%nat.
Proof.
  apply (X20_mounted_monitor_alerts (fun _ => 0.5) (fun _ => 0%Z) "P001" 0 boot).
  intros k. split; [discriminate | reflexivity].
Defined.

(** ** The derivation: what a position measures, and the walk between calls *)

Lemma positionVitals_heartRate (random : nat -> Q) pos last w s :
  heartRateStability pos = Some s ->
  base_heartRate (fst (positionVitals random pos last w))
  = Math.max 50 (Math.min 150
      (or_default (heartRate <$> last) 72 * s + (random (random_calls w) - 0.5) * 10)).
Proof. destruct pos; intros [= <-]; reflexivity. Qed.

Lemma positionVitals_unmeasured (random : nat -> Q) pos last w :
  let b := fst (positionVitals random pos last w) in
  (heartRateStability pos = None -> base_heartRate b = 72) /\
  (pos <> arm -> base_systolic b = 120 /\ base_diastolic b = 80) /\
  (pos <> wrist -> base_oxygenSat b = 98) /\
  (pos <> head -> pos <> torso_back -> base_temperature b = 98.6).
Proof. destruct pos; cbn; repeat split; congruence. Qed.

(** X21: a reading carries a measured value only for the vitals of its
    frame's position; every other vital is the default (heart rate 72,
    blood pressure 120/80, oxygen saturation 98, temperature 98.6) scaled by
    the quality factor and rounded, whatever the stored last reading and the
    random draws: blood pressure is measured by arm frames only, oxygen
    saturation by wrist frames only, temperature by head and torso_back
    frames only, heart rate by chest, wrist and torso_back frames only. *)
Theorem X21_unmeasured_vitals_are_defaults (random : nat -> Q) (f : BLEWBANFrame)
    (w : World) :
  let r := fst (extractVitalSigns random f w) in
  let q := qualityFactor (signalQuality r) in
  (position f <> chest -> position f <> wrist -> position f <> torso_back ->
   heartRate r = inject_Z (Math.round (72 * q))) /\
  (position f <> arm ->
   systolic (bloodPressure r) = inject_Z (Math.round (120 * q)) /\
   diastolic (bloodPressure r) = inject_Z (Math.round (80 * q))) /\
  (position f <> wrist -> oxygenSaturation r = inject_Z (Math.round (98 * q))) /\
  (position f <> head -> position f <> torso_back ->
   temperature r = inject_Z (Math.round (98.6 * q * 10)) / 10).
Proof.
  cbn zeta. rewrite extractVitalSigns_reading.
  cbn [heartRate bloodPressure systolic diastolic oxygenSaturation temperature
       signalQuality].
  destruct (positionVitals_unmeasured random (position f)
              (lastReadings (this w) !! deviceId f) w) as (Hh & Hb & Ho & Ht).
  split; [|split; [|split]].
  - intros H1 H2 H3. rewrite Hh; [reflexivity|]. now destruct (position f).
  - intros H. destruct (Hb H) as [-> ->]. now split.
  - intros H. now rewrite (Ho H).
  - intros H1 H2. now rewrite (Ht H1 H2).
Qed.

(** X22: two derivations for the same device are linked by the random
    walk: when the second frame's position derives a heart rate (chest with
    weight 0.8, wrist 0.9, torso_back 0.7), the second reading's heart rate
    is the first reading's heart rate times the weight, plus a perturbation
    in [-5, 5) drawn at the second call, clamped to [50, 150], scaled by the
    second frame's quality factor and rounded. *)
Theorem X22_second_reading_walks_from_first (random : nat -> Q)
    (f1 f2 : BLEWBANFrame) (w : World) (s : Q) :
  deviceId f2 = deviceId f1 ->
  heartRateStability (position f2) = Some s ->
  let r1 := fst (extractVitalSigns random f1 w) in
  let w1 := snd (extractVitalSigns random f1 w) in
  let r2 := fst (extractVitalSigns random f2 w1) in
  heartRate r2
  = inject_Z (Math.round
      (Math.max 50 (Math.min 150
         (heartRate r1 * s + (random (random_calls w1) - 0.5) * 10))
       * qualityFactor (classify f2))).
Proof.
  intros Hd Hs r1 w1 r2.
  subst r2. rewrite extractVitalSigns_reading. cbn [heartRate].
  rewrite (positionVitals_heartRate random (position f2) _ w1 s Hs).
  assert (lastReadings (this w1) !! deviceId f2 = Some r1) as ->.
  { subst w1. rewrite extractVitalSigns_this. cbn [lastReadings].
    rewrite Hd. apply lookup_insert_eq. }
  cbn [fmap option_fmap option_map].
  rewrite or_default_nonzero; [reflexivity|].
  destruct (extractVitalSigns_scaled_bands random f1 w) as ([Hlow _] & _).
  fold r1 in Hlow.
  assert (35 <= inject_Z (Math.round (50 * qualityFactor (classify f1)))) as H35.
  { apply (Qle_trans _ (inject_Z (Math.round (50 * 0.7)))); [discriminate|].
    apply inject_Z_le, round_mono.
    destruct (qualityFactor_range (classify f1)). lra. }
  lra.
Qed.

Lemma X22_second_reading_walks_from_first_witness :
  let f := {| frameNumber := 1; frame_timestamp := 0; deviceId := "P001_chest";
              position := chest; txPower := dbm3; antenna := 1;
              frequency := 2402000000; channelNumber := 0; rssi := -40;
              signalStrength := 75; frameDecoded := true; bitLength := 150;
              maxGradientUnwrappedPhase := []; iComponent := []; qComponent := [] |} in
  let r1 := fst (extractVitalSigns (fun _ => 0.5) f boot) in
  let w1 := snd (extractVitalSigns (fun _ => 0.5) f boot) in
  let r2 := fst (extractVitalSigns (fun _ => 0.5) f w1) in
  heartRate r2
  = inject_Z (Math.round
      (Math.max 50 (Math.min 150
         (heartRate r1 * 0.8 + ((fun _ : nat => 0.5) (random_calls w1) - 0.5) * 10))
       * qualityFactor (classify f))).
Proof.
  intros f.
  apply (X22_second_reading_walks_from_first (fun _ => 0.5) f f boot 0.8).
  - reflexivity.
  - reflexivity.
Defined.

(** X23: [new BLEWBANDataGenerator()] calls [Math.random()] six times and
    leaves an instance with frame counter 0, no last reading, and a noise
    factor in [0.9, 1] under each of the six sensor ids and under no other
    key. *)
Theorem X23_fresh_instance (random : nat -> Q) (w : World) :
  unit_interval random ->
  let w' := snd (constructor random w) in
  frameCounter (this w') = 0%Z /\
  lastReadings (this w') = ∅ /\
  (forall k, is_Some (signalNoiseFactors (this w') !! k) <-> k ∈ id <$> WBAN_POSITIONS) /\
  (forall k v, signalNoiseFactors (this w') !! k = Some v -> 0.9 <= v <= 1) /\
  random_calls w' = (random_calls w + 6)%nat /\
  clock_calls w' = clock_calls w.
Proof.
  intros Hr w'.
  destruct (constructor_noise_values random Hr w) as [Hv Hk].
  split; [reflexivity|]. split; [reflexivity|].
  split; [|split; [exact Hv|]].
  - intros k. split; [apply constructor_noise_keys|].
    intros Hin. apply list_elem_of_fmap in Hin as (s & -> & Hs). now apply Hk.
  - subst w'. destruct w as [g rc cc]. cbn. split; [lia | reflexivity].
Qed.

Lemma X23_fresh_instance_witness :
  let w' := snd (constructor (fun _ => 0.5) boot) in
  frameCounter (this w') = 0%Z /\
  lastReadings (this w') = ∅ /\
  (forall k, is_Some (signalNoiseFactors (this w') !! k) <-> k ∈ id <$> WBAN_POSITIONS) /\
  (forall k v, signalNoiseFactors (this w') !! k = Some v -> 0.9 <= v <= 1) /\
  random_calls w' = (random_calls boot + 6)%nat /\
  clock_calls w' = clock_calls boot.
Proof.
  apply (X23_fresh_instance (fun _ => 0.5) boot).
  intros k. split; [discriminate | reflexivity].
Defined.
